(** * ExpenseTrack: scripts/consolidate-expense-data.py

    A shallow embedding of the extraction pipeline of the script: the
    vendor classifier [extract_vendor] over the ordered rule table
    [VENDOR_PATTERNS], the amount parser [parse_amount] and the line
    scanner [parse_markdown_file].

    Text is a list of characters.  A character is one of Rocq's [ascii]
    values read as the code point U+0000..U+00FF, and the character
    classes below are Python's on that range ([str.isspace], the [\w]
    class of [re], the case folding of [re.IGNORECASE]).

    The builtins the script calls are embedded in the modules [Py]
    ([str] methods and [float]) and [Re] (the part of [re] syntax that
    occurs in the rule table).  [filepath.read_text()] and
    [filepath.name] are the two arguments [content] and [name] of
    [parse_markdown_file]. *)

From Stdlib Require Import String Ascii List Bool NArith ZArith Lia.
From Stdlib Require Import Permutation Sorted.
Import ListNotations.

Abbreviation str := (list ascii).

(** String literals stand for their list of characters. *)
Definition lit (s : string) : str := list_ascii_of_string s.
Coercion lit : string >-> list.

#[local] Open Scope string_scope.
#[local] Open Scope list_scope.

(* ================================================================= *)
(** ** Python's [str] builtins, as the script uses them *)

Module Py.

Definition code (c : ascii) : N := N_of_ascii c.

(** [between lo hi c]: the code point of [c] lies in [lo..hi]. *)
Definition between (lo hi : N) (c : ascii) : bool :=
  ((lo <=? code c) && (code c <=? hi))%N.

(** [str.isspace] on one character: TAB..CR, FS..US, SPACE, NEL, NBSP. *)
Definition isspace (c : ascii) : bool :=
  between 9 13 c || between 28 32 c || (code c =? 133)%N || (code c =? 160)%N.

Definition isdigit (c : ascii) : bool := between 48 57 c.

Definition is_ascii_alnum (c : ascii) : bool :=
  between 48 57 c || between 65 90 c || between 97 122 c.

(** [s.lstrip()], [s.rstrip()], [s.strip()] with no argument. *)
Fixpoint lstrip (s : str) : str :=
  match s with
  | c :: s' => if isspace c then lstrip s' else s
  | [] => []
  end.

Definition rstrip (s : str) : str := rev (lstrip (rev s)).

Definition strip (s : str) : str := rstrip (lstrip s).

(** [s.startswith(prefix)]. *)
Fixpoint startswith (s prefix : str) : bool :=
  match prefix, s with
  | [], _ => true
  | p :: prefix', c :: s' => (c =? p)%char && startswith s' prefix'
  | _ :: _, [] => false
  end.

(** [sub in s]. *)
Fixpoint contains (sub s : str) : bool :=
  startswith s sub ||
  match s with
  | [] => false
  | _ :: s' => contains sub s'
  end.

(** [s.split(sep)] for a separator of one character. *)
Fixpoint split (s : str) (sep : ascii) : list str :=
  match s with
  | [] => [[]]
  | c :: s' =>
      if (c =? sep)%char then [] :: split s' sep
      else match split s' sep with
           | field :: fields => (c :: field) :: fields
           | [] => [[c]]
           end
  end.

(** [s.split()] with no argument: the maximal runs of non-space
    characters. *)
Fixpoint split_ws (s : str) : list str :=
  match s with
  | [] => []
  | c :: s' =>
      if isspace c then split_ws s'
      else match s' with
           | [] => [[c]]
           | c' :: _ =>
               if isspace c' then [c] :: split_ws s'
               else match split_ws s' with
                    | word :: words => (c :: word) :: words
                    | [] => [[c]]
                    end
           end
  end.

(** [s.replace(old, new)] for [old] of one character. *)
Fixpoint replace (s : str) (old : ascii) (new : str) : str :=
  match s with
  | [] => []
  | c :: s' => (if (c =? old)%char then new else [c]) ++ replace s' old new
  end.

(** [sep.join(items)]. *)
Fixpoint join (sep : str) (items : list str) : str :=
  match items with
  | [] => []
  | [x] => x
  | x :: rest => x ++ sep ++ join sep rest
  end.

(** *** [float(s)]

    A float is kept as the decimal numeral that [float] reads,
    [(-1)^neg * mant * 10^exp]; CPython then rounds that decimal to the
    nearest binary64 - to an infinity or to zero when it is out of
    range - a step this embedding leaves out: a [Finite] value names the
    float its decimal rounds to, and names it faithfully for decimals of
    at most fifteen digits within the range of binary64.  [float] raises
    [ValueError] where [float_of_str] is [None]. *)
Inductive pyfloat : Type :=
| Finite (neg : bool) (mant : N) (exp : Z)
| Inf (neg : bool)
| NaN.

Definition digit_val (c : ascii) : N := (code c - 48)%N.

(** The value of a digit string, most significant digit first. *)
Definition digits_val (ds : str) : N :=
  fold_left (fun acc c => (10 * acc + digit_val c)%N) ds 0%N.

(** [span p s]: the longest prefix of [s] whose characters satisfy [p],
    and the rest. *)
Fixpoint span (p : ascii -> bool) (s : str) : str * str :=
  match s with
  | c :: s' => if p c then let (a, b) := span p s' in (c :: a, b) else ([], s)
  | [] => ([], [])
  end.

(** Underscores of a numeric literal: each one must stand between two
    digits.  The result is the text without them. *)
Fixpoint drop_underscores (prev : ascii) (s : str) : option str :=
  match s with
  | [] => if (prev =? "_")%char then None else Some []
  | c :: s' =>
      if (c =? "_")%char then
        if isdigit prev then drop_underscores c s' else None
      else if (prev =? "_")%char && negb (isdigit c) then None
      else option_map (cons c) (drop_underscores c s')
  end.

(** An optional sign; [true] for minus. *)
Definition read_sign (s : str) : bool * str :=
  match s with
  | "-"%char :: s' => (true, s')
  | "+"%char :: s' => (false, s')
  | _ => (false, s)
  end.

Definition lower_ascii (c : ascii) : ascii :=
  if between 65 90 c then ascii_of_N (code c + 32) else c.

(** [inf], [infinity] and [nan] in any letter case, after the sign. *)
Definition inf_or_nan (neg : bool) (s : str) : option pyfloat :=
  let w := map lower_ascii s in
  if list_eq_dec ascii_dec w "inf" then Some (Inf neg)
  else if list_eq_dec ascii_dec w "infinity" then Some (Inf neg)
  else if list_eq_dec ascii_dec w "nan" then Some NaN
  else None.

(** The exponent part: nothing, or [e] or [E], an optional sign and at
    least one digit, up to the end of the text. *)
Definition read_exponent (s : str) : option Z :=
  match s with
  | [] => Some 0%Z
  | c :: s' =>
      if (c =? "e")%char || (c =? "E")%char then
        let (eneg, s'') := read_sign s' in
        let (ds, rest) := span isdigit s'' in
        match ds, rest with
        | _ :: _, [] =>
            Some (if eneg then (- Z.of_N (digits_val ds))%Z
                  else Z.of_N (digits_val ds))
        | _, _ => None
        end
      else None
  end.

(** A decimal numeral: digits with an optional point, at least one digit
    in all, then the exponent part. *)
Definition decimal (neg : bool) (s : str) : option pyfloat :=
  let (ip, s1) := span isdigit s in
  let (fp, s2) :=
    match s1 with
    | "."%char :: s1' => span isdigit s1'
    | _ => ([], s1)
    end in
  match ip ++ fp with
  | [] => None
  | _ :: _ =>
      match read_exponent s2 with
      | Some e =>
          Some (Finite neg (digits_val (ip ++ fp))
                  (e - Z.of_nat (length fp))%Z)
      | None => None
      end
  end.

(** The space characters [float] strips from both ends: [str.isspace]
    without FS..US. *)
Definition float_space (c : ascii) : bool :=
  isspace c && negb (between 28 31 c).

Fixpoint lstrip_by (p : ascii -> bool) (s : str) : str :=
  match s with
  | c :: s' => if p c then lstrip_by p s' else s
  | [] => []
  end.

Definition float_of_str (s : str) : option pyfloat :=
  let t := rev (lstrip_by float_space (rev (lstrip_by float_space s))) in
  match drop_underscores Ascii.zero t with
  | None => None
  | Some u =>
      let (neg, body) := read_sign u in
      match decimal neg body with
      | Some x => Some x
      | None => inf_or_nan neg body
      end
  end.

(** [x == y] on floats: two finite floats are equal when they denote the
    same number, whatever the sign of a zero; [nan] equals nothing. *)
Definition signed (neg : bool) (mant : N) : Z :=
  if neg then (- Z.of_N mant)%Z else Z.of_N mant.

Definition float_eqb (x y : pyfloat) : bool :=
  match x, y with
  | Finite n1 m1 e1, Finite n2 m2 e2 =>
      let e := Z.min e1 e2 in
      (signed n1 m1 * 10 ^ (e1 - e) =? signed n2 m2 * 10 ^ (e2 - e))%Z
  | Inf n1, Inf n2 => Bool.eqb n1 n2
  | _, _ => false
  end.

End Py.

(* ================================================================= *)
(** ** The regular expressions of the rule table

    [re.search(pattern, text, re.IGNORECASE)] for the pattern syntax that
    [VENDOR_PATTERNS] is written in: literal characters, escaped
    punctuation, [.], the word boundary [\b], the postfix operators [*]
    and [?] on one character, and [|] between alternatives.  A pattern
    outside this syntax has no reading here ([compile] gives [None]). *)

Module Re.

Inductive atom : Type :=
| Lit (c : ascii)      (* that character, up to letter case *)
| AnyChar              (* [.]: any character but the newline *)
| WordBoundary.        (* [\b] *)

Inductive quant : Type := Once | Optional | Star.

Definition item : Type := atom * quant.

(** A pattern is a list of alternatives, each a sequence of items. *)
Definition regex : Type := list (list item).

Inductive token : Type :=
| TAtom (a : atom)
| TQuant (q : quant)
| TBar.

(** Characters with a meaning of their own that the rule table never
    uses unescaped. *)
Definition reserved (c : ascii) : bool :=
  existsb (Ascii.eqb c) ("+()[]{}^$" : str).

Fixpoint lex (escaped : bool) (p : str) : option (list token) :=
  match p with
  | [] => if escaped then None else Some []
  | c :: p' =>
      if escaped then
        if (c =? "b")%char then
          option_map (cons (TAtom WordBoundary)) (lex false p')
        else if Py.is_ascii_alnum c then None
        else option_map (cons (TAtom (Lit c))) (lex false p')
      else if (c =? "\")%char then lex true p'
      else if (c =? ".")%char then
        option_map (cons (TAtom AnyChar)) (lex false p')
      else if (c =? "|")%char then option_map (cons TBar) (lex false p')
      else if (c =? "*")%char then
        option_map (cons (TQuant Star)) (lex false p')
      else if (c =? "?")%char then
        option_map (cons (TQuant Optional)) (lex false p')
      else if reserved c then None
      else option_map (cons (TAtom (Lit c))) (lex false p')
  end.

(** Put an item in front of the first alternative. *)
Definition push (i : item) (r : regex) : regex :=
  match r with
  | alt :: alts => (i :: alt) :: alts
  | [] => [[i]]
  end.

Fixpoint group (ts : list token) : option regex :=
  match ts with
  | [] => Some [[]]
  | TBar :: ts' => option_map (cons []) (group ts')
  | TQuant _ :: _ => None
  | TAtom a :: ts' =>
      match ts' with
      | TQuant q :: ts'' =>
          match a, ts'' with
          | WordBoundary, _ => None
          | _, TQuant _ :: _ => None
          | _, _ => option_map (push (a, q)) (group ts'')
          end
      | _ => option_map (push (a, Once)) (group ts')
      end
  end.

Definition compile (pattern : str) : option regex :=
  match lex false pattern with
  | Some ts => group ts
  | None => None
  end.

(** Case folding of [re.IGNORECASE] on U+0000..U+00FF: A..Z and the
    capital letters U+00C0..U+00DE but the multiplication sign. *)
Definition lower (c : ascii) : ascii :=
  if Py.between 65 90 c || Py.between 192 214 c || Py.between 216 222 c
  then ascii_of_N (Py.code c + 32) else c.

(** The class [\w] on U+0000..U+00FF. *)
Definition is_word (c : ascii) : bool :=
  Py.is_ascii_alnum c || (c =? "_")%char ||
  existsb (N.eqb (Py.code c)) [170; 178; 179; 181; 185; 186; 188; 189; 190]%N ||
  Py.between 192 214 c || Py.between 216 246 c || Py.between 248 255 c.

(** One character against an atom that consumes one. *)
Definition accepts (a : atom) (c : ascii) : bool :=
  match a with
  | Lit x => (lower c =? lower x)%char
  | AnyChar => negb (c =? "010")%char
  | WordBoundary => false
  end.

Definition word_before (prev : option ascii) : bool :=
  match prev with Some c => is_word c | None => false end.

Definition word_after (s : str) : bool :=
  match s with c :: _ => is_word c | [] => false end.

(** [\b] holds between a word character and a non-word character or an
    end of the text. *)
Definition at_boundary (prev : option ascii) (s : str) : bool :=
  xorb (word_before prev) (word_after s).

(** [star a k prev s]: [a*] followed by the continuation [k]. *)
Fixpoint star (a : atom) (k : option ascii -> str -> bool)
    (prev : option ascii) (s : str) : bool :=
  k prev s ||
  match s with
  | c :: s' => accepts a c && star a k (Some c) s'
  | [] => false
  end.

(** [match_here items prev s]: the items match a prefix of [s], where
    [prev] is the character before [s] in the text. *)
Fixpoint match_here (items : list item) (prev : option ascii) (s : str)
    : bool :=
  match items with
  | [] => true
  | (WordBoundary, _) :: rest => at_boundary prev s && match_here rest prev s
  | (a, Once) :: rest =>
      match s with
      | c :: s' => accepts a c && match_here rest (Some c) s'
      | [] => false
      end
  | (a, Optional) :: rest =>
      match s with
      | c :: s' => accepts a c && match_here rest (Some c) s'
      | [] => false
      end || match_here rest prev s
  | (a, Star) :: rest => star a (match_here rest) prev s
  end.

Definition match_at (r : regex) (prev : option ascii) (s : str) : bool :=
  existsb (fun alt => match_here alt prev s) r.

(** Try every start position, left to right. *)
Fixpoint search_from (r : regex) (prev : option ascii) (s : str) : bool :=
  match_at r prev s ||
  match s with
  | c :: s' => search_from r (Some c) s'
  | [] => false
  end.

(** [re.search(pattern, text, re.IGNORECASE)] as a truth value.  A
    pattern without a reading matches nothing. *)
Definition search (pattern text : str) : bool :=
  match compile pattern with
  | Some r => search_from r None text
  | None => false
  end.

End Re.

(* ================================================================= *)
(** ** The script *)

Record ExpenseLine : Type := {
  date : str;
  description : str;
  vendor : str;
  amount : Py.pyfloat;
  gl_code : str;
  department : str;
  source_file : str
}.

(** One entry of the rule table: a pattern and the vendor it stands
    for. *)
Definition rule (pattern vendor : str) : str * str := (pattern, vendor).

(** Vendor extraction patterns - order matters (more specific first). *)
Definition VENDOR_PATTERNS : list (str * str) := [
  (* Airlines *)
  rule "\bDelta\b|\bDELTA AIR\b" "Delta Airlines";
  rule "\bAmerican\b|\bAMERICAN AIR" "American Airlines";
  rule "\bSouthwest\b" "Southwest Airlines";
  rule "\bUnited\b" "United Airlines";
  (* Hotels *)
  rule "\bHampton Inn\b|\bHAMPTON INN\b" "Hampton Inn";
  rule "\bHilton\b|\bHILTON\b" "Hilton";
  rule "\bMarriott\b|\bMARRIOTT\b" "Marriott";
  rule "\bDoubleTree\b|\bDOUBLETREE\b" "DoubleTree";
  rule "\bTribute Portfolio\b" "Tribute Portfolio Hotel";
  (* Car Rental *)
  rule "\bHertz\b|\bHERTZ\b" "Hertz";
  rule "\bEnterprise\b" "Enterprise";
  (* Parking *)
  rule "\bRDU\b.*\bParking\b|\bRDUAA\b" "RDU Airport Parking";
  rule "\bParking\b" "Parking";
  (* Ride Share *)
  rule "\bLyft\b|\bLYFT\b" "Lyft";
  rule "\bUber\b|\bUBER\b" "Uber";
  (* Software/Subscriptions *)
  rule "\bChatGPT\b|\bOpenAI\b|\bOPENAI\b" "OpenAI";
  rule "\bClaude\b|\bCLAUDE\.AI\b" "Anthropic Claude";
  rule "\bCursor\b|\bCURSOR\b" "Cursor AI";
  rule "\bTwilio\b|\bTWILIO\b" "Twilio";
  rule "\bFoxit\b|\bFOXIT\b" "Foxit";
  rule "\bFireflies\b|\bFIREFLIES\b" "Fireflies.AI";
  rule "\bGoDaddy\b|\bGODADDY\b" "GoDaddy";
  rule "\bSuperhuman\b|\bSUPERHUMAN\b" "Superhuman";
  rule "\bElevenLabs\b|\bELEVENLABS\b" "ElevenLabs";
  rule "\bAddigy\b|\bADIGY\b" "Addigy";
  rule "\bPyCharm\b" "JetBrains PyCharm";
  rule "\bGamma\b" "Gamma";
  rule "\bStarlink\b|\bSTARLINK\b" "Starlink";
  rule "\bCrystal Reports\b" "SAP Crystal Reports";
  (* Utilities *)
  rule "\bAT&T\b|\bATT\b|\bMobile Telephone\b" "AT&T";
  rule "\bGFiber\b|\bGoogle Fiber\b|\bUtilities.*Internet\b" "Google Fiber";
  rule "\bVerizon\b|\bVZW\b" "Verizon";
  (* Retail/Hardware *)
  rule "\bAmazon\b|\bAMAZON\b" "Amazon";
  rule "\bBest Buy\b|\bBEST BUY\b" "Best Buy";
  rule "\bWalmart\b|\bWALMART\b" "Walmart";
  rule "\bDell\b|\bDELL\b" "Dell";
  rule "\bApple\b|\bAPPLE\b" "Apple";
  rule "\bOwl Labs\b" "Owl Labs";
  rule "\bUPS Store\b|\bUPS\b.*Shipping" "UPS";
  (* Restaurants/Meals *)
  rule "\bChick-fil-A\b|\bChickfila\b" "Chick-fil-A";
  rule "\bChilis\b|\bChili\'?s\b" "Chilis";
  rule "\bFive Guys\b" "Five Guys";
  rule "\bBuffalo Wild Wings\b" "Buffalo Wild Wings";
  rule "\bDoorDash\b" "DoorDash";
  rule "\bStarbucks\b" "Starbucks";
  (* Generic travel/meal patterns *)
  rule "\bFlight\b" "Flight";
  rule "\bHotel\b" "Hotel";
  rule "\bCar Rental\b|\bRental Car\b" "Car Rental";
  rule "\bBreakfast\b" "Meal - Breakfast";
  rule "\bLunch\b" "Meal - Lunch";
  rule "\bDinner\b" "Meal - Dinner";
  rule "\bMeal\b" "Meal"
].

(** The first loop of [extract_vendor]: the vendor of the first rule
    whose pattern is found in the description, if there is one. *)
Fixpoint first_match (rules : list (str * str)) (description : str)
    : option str :=
  match rules with
  | [] => None
  | (pattern, vendor) :: rest =>
      if Re.search pattern description then Some vendor
      else first_match rest description
  end.

(** The prefixes removed by the fallback. *)
Definition SKIP_PREFIXES : list str :=
  [ "PAYPAL" : str; "DNH*" : str; "PY" : str; "DMI*" : str; "IAH" : str;
    "ATL" : str; "MSY" : str; "DFW" : str; "RDU" : str ].

(** The second loop, over the prefixes, which is left at the first
    prefix that [words[0]] starts with. *)
Fixpoint remove_prefix (skips : list str) (word0 : str) (rest : list str)
    : list str :=
  match skips with
  | [] => word0 :: rest
  | skip :: skips' =>
      if Py.startswith word0 skip then rest
      else remove_prefix skips' word0 rest
  end.

(** Extract vendor name from description using pattern matching. *)
Definition extract_vendor (description : str) : str :=
  match first_match VENDOR_PATTERNS description with
  | Some vendor => vendor
  | None =>
      (* If no pattern matches, return first significant word(s) *)
      match Py.split_ws description with
      | word0 :: rest =>
          let words := remove_prefix SKIP_PREFIXES word0 rest in
          if (2 <=? length words)%nat then Py.join " " (firstn 2 words)
          else match words with
               | w :: _ => w
               | [] => "Unknown"
               end
      | [] => "Unknown"
      end
  end.

(** The literal [0.0]. *)
Definition zero : Py.pyfloat := Py.Finite false 0 (-1).

(** Parse amount string like '$1,234.56' to float. *)
Definition parse_amount (amount_str : str) : Py.pyfloat :=
  let clean :=
    Py.strip (Py.replace (Py.replace amount_str "$" "") "," "") in
  match Py.float_of_str clean with
  | Some x => x
  | None => zero            (* except ValueError *)
  end.

(** The variables of the loop of [parse_markdown_file]. *)
Record scan : Type := {
  in_table : bool;
  header_found : bool;
  expenses : list ExpenseLine
}.

Definition start : scan :=
  {| in_table := false; header_found := false; expenses := [] |}.

Definition nonempty (s : str) : bool :=
  match s with [] => false | _ :: _ => true end.

(** The cells of a table line. *)
Definition row_parts (line : str) : list str :=
  let parts := map Py.strip (Py.split line "|") in
  (* Remove empty first/last elements from split *)
  filter nonempty parts.

(** One pass through the loop body, on the line [raw]. *)
Definition step (name : str) (st : scan) (raw : str) : scan :=
  let line := Py.strip raw in
  (* Skip empty lines *)
  if negb (nonempty line) then st
  (* Check for table start *)
  else if Py.contains "| Date |" line && Py.contains "GL Acct" line then
    {| in_table := true; header_found := true; expenses := expenses st |}
  (* Skip separator line *)
  else if in_table st && Py.startswith line "|---" then st
  (* Check for table end (total line or empty) *)
  else if in_table st &&
          (Py.contains "**Total" line || negb (Py.startswith line "|")) then
    {| in_table := false; header_found := header_found st;
       expenses := expenses st |}
  (* Parse expense line *)
  else if in_table st && Py.startswith line "|" then
    match row_parts line with
    | p0 :: p1 :: p2 :: p3 :: p4 :: _ =>
        let date := p0 in
        let gl_code := Py.replace p1 "." "" in   (* Remove trailing dots *)
        let department := p2 in
        let description := p3 in
        let amount_str := p4 in
        (* Extract vendor from description *)
        let vendor := extract_vendor description in
        let amount := parse_amount amount_str in
        {| in_table := in_table st; header_found := header_found st;
           expenses := expenses st ++
             [ {| date := date; description := description;
                  vendor := vendor; amount := amount; gl_code := gl_code;
                  department := department; source_file := name |} ] |}
    | _ => st
    end
  else st.

(** Parse a markdown expense report and extract expense lines. *)
Definition parse_markdown_file (content name : str) : list ExpenseLine :=
  let lines := Py.split content "010" in
  expenses (fold_left (step name) lines start).

(* ================================================================= *)
(** ** The specification's wording

    Definitions that follow the words of the specification, to be set
    against the definitions above. *)

Module Spec.

(** "the first token begins with any of a fixed set of known noise
    prefixes" *)
Definition begins_with_noise (token : str) : bool :=
  existsb (Py.startswith token) SKIP_PREFIXES.

(** "split description on whitespace into tokens; if the first token
    begins with [a noise prefix], discard that token.  Return the first
    two remaining tokens joined by a single space; if fewer than two
    tokens remain, return the single remaining token; if none remain,
    return the literal label Unknown." *)
Definition fallback (description : str) : str :=
  let tokens := Py.split_ws description in
  let remaining :=
    match tokens with
    | first :: others => if begins_with_noise first then others else tokens
    | [] => []
    end in
  match remaining with
  | t1 :: t2 :: _ => t1 ++ " " ++ t2
  | [t] => t
  | [] => "Unknown"
  end.

(** "strip currency symbol and thousands separators, trim whitespace,
    then parse as a decimal number; any parse failure yields 0.0" *)
Definition amount (text : str) : Py.pyfloat :=
  let digits :=
    filter (fun c => negb ((c =? "$")%char || (c =? ",")%char)) text in
  match Py.float_of_str (Py.strip digits) with
  | Some x => x
  | None => zero
  end.

Definition drop_empty_head (fields : list str) : list str :=
  match fields with
  | [] :: rest => rest
  | _ => fields
  end.

(** "split the line on the row-delimiter character into fields; discard
    leading/trailing empty fields produced by the delimiters at line
    boundaries; trim whitespace from each remaining field" *)
Definition row_fields (line : str) : list str :=
  let fields := Py.split line "|" in
  let inner := rev (drop_empty_head (rev (drop_empty_head fields))) in
  map Py.strip inner.

(** "GL code (with trailing period characters stripped)" *)
Definition strip_trailing_periods (field : str) : str :=
  rev (Py.lstrip_by (Ascii.eqb ".") (rev field)).

(** "a line consisting solely of table-separator punctuation (markdown's
    header/body divider row)": bars, hyphens and alignment colons. *)
Definition separator_only (line : str) : bool :=
  nonempty line &&
  forallb (fun c => (c =? "|")%char || (c =? "-")%char || (c =? ":")%char)
    line.

(** "a line containing both a date-column header marker and a GL-account
    header marker" *)
Definition is_header (line : str) : bool :=
  Py.contains "| Date |" line && Py.contains "GL Acct" line.

End Spec.

(** The scan of a list of lines from a given state. *)
Definition run (name : str) (st : scan) (lines : list str) : scan :=
  fold_left (step name) lines st.

(** A continuation of the matcher that does not see letter case. *)
Definition case_blind (k : option ascii -> str -> bool) : Prop :=
  forall prev s, k (option_map Re.lower prev) (map Re.lower s) = k prev s.

(** The character before the position reached after reading [pre]. *)
Definition last_char (prev : option ascii) (pre : str) : option ascii :=
  match rev pre with
  | c :: _ => Some c
  | [] => prev
  end.

Definition str_eqb (x y : str) : bool :=
  if list_eq_dec ascii_dec x y then true else false.

(** No text occurs twice in the list. *)
Fixpoint distinct (l : list str) : bool :=
  match l with
  | [] => true
  | x :: rest => negb (existsb (str_eqb x) rest) && distinct rest
  end.

(** The state with no record yet, outside or inside the table. *)
Definition mode (inside : bool) : scan :=
  {| in_table := inside; header_found := false; expenses := [] |}.

(** The first line of the text is a header row. *)
Definition starts_with_header (text : str) : bool :=
  match Py.split text "010" with
  | first :: _ => Spec.is_header (Py.strip first)
  | [] => false
  end.

(** The line feed, as a text. *)
Definition NL : str := ["010"%char].

(** The lines of a document, as one text. *)
Definition document (lines : list str) : str := Py.join NL lines.

(* ================================================================= *)
(** ** The rest of the script: [main]

    The files found by the glob, already read, are a list of pairs of a
    content and a file name, in the sorted order of [md_files]. *)

(** The loop of [main] over the files, [all_expenses.extend(expenses)]. *)
Definition collect (md_files : list (str * str)) : list ExpenseLine :=
  fold_left
    (fun all_expenses md_file =>
       let expenses := parse_markdown_file (fst md_file) (snd md_file) in
       all_expenses ++ expenses)
    md_files [].

(** A [dict] from text to count, as the list of its items in insertion
    order. *)
Definition dict : Type := list (str * nat).

(** [d.get(key, default)]. *)
Fixpoint dict_get (d : dict) (key : str) (default : nat) : nat :=
  match d with
  | [] => default
  | (k, v) :: d' => if str_eqb k key then v else dict_get d' key default
  end.

(** [d[key] = value]: a key that is present keeps its place. *)
Fixpoint dict_set (d : dict) (key : str) (value : nat) : dict :=
  match d with
  | [] => [(key, value)]
  | (k, v) :: d' =>
      if str_eqb k key then (k, value) :: d'
      else (k, v) :: dict_set d' key value
  end.

(** Top vendors by count: the loop that fills [vendor_counts]. *)
Definition vendor_counts (all_expenses : list ExpenseLine) : dict :=
  fold_left
    (fun counts exp =>
       dict_set counts (vendor exp) (dict_get counts (vendor exp) 0 + 1))
    all_expenses [].

(** [sorted(items, key=key)]: the stable sort, by insertion. *)
Fixpoint insert_by {A : Type} (key : A -> Z) (x : A) (l : list A) : list A :=
  match l with
  | [] => [x]
  | y :: l' =>
      if (key x <=? key y)%Z then x :: y :: l'
      else y :: insert_by key x l'
  end.

Definition sorted {A : Type} (items : list A) (key : A -> Z) : list A :=
  fold_right (insert_by key) [] items.

(** [sorted(vendor_counts.items(), key=lambda x: -x[1])[:15]]. *)
Definition top_vendors (all_expenses : list ExpenseLine) : dict :=
  firstn 15
    (sorted (vendor_counts all_expenses) (fun x => (- Z.of_nat (snd x))%Z)).

(** A description for each rule of the table, in the order of the
    table. *)
Definition SAMPLES : list str :=
  [ "Delta" : str; "American" : str; "Southwest" : str; "United" : str;
    "Hampton Inn" : str; "Hilton" : str; "Marriott" : str;
    "DoubleTree" : str; "Tribute Portfolio" : str; "Hertz" : str;
    "Enterprise" : str; "RDU Parking" : str; "Parking" : str; "Lyft" : str;
    "Uber" : str; "ChatGPT" : str; "Claude" : str; "Cursor" : str;
    "Twilio" : str; "Foxit" : str; "Fireflies" : str; "GoDaddy" : str;
    "Superhuman" : str; "ElevenLabs" : str; "Addigy" : str; "PyCharm" : str;
    "Gamma" : str; "Starlink" : str; "Crystal Reports" : str; "AT&T" : str;
    "GFiber" : str; "Verizon" : str; "Amazon" : str; "Best Buy" : str;
    "Walmart" : str; "Dell" : str; "Apple" : str; "Owl Labs" : str;
    "UPS Store" : str; "Chick-fil-A" : str; "Chilis" : str;
    "Five Guys" : str; "Buffalo Wild Wings" : str; "DoorDash" : str;
    "Starbucks" : str; "Flight" : str; "Hotel" : str; "Car Rental" : str;
    "Breakfast" : str; "Lunch" : str; "Dinner" : str; "Meal" : str ].

(** No character of the text is a space character. *)
Definition no_space (s : str) : Prop :=
  Forall (fun c => Py.isspace c = false) s.

(** The text is as [strip] leaves it. *)
Definition trimmed (s : str) : Prop := Py.strip s = s.

(** The two [replace] calls of [parse_amount]. *)
Definition cleaned (amount_str : str) : str :=
  Py.strip (Py.replace (Py.replace amount_str "$" "") "," "").

(** The carriage return. *)
Definition CR : ascii := "013"%char.

(** The lines that can give a record: they begin with a bar and are not
    header rows. *)
Definition row_like (raw : str) : bool :=
  Py.startswith (Py.strip raw) "|" && negb (Spec.is_header (Py.strip raw)).

(** The record the loop body builds from the cells of a row, when there
    are five or more. *)
Definition row_record (name : str) (parts : list str) : option ExpenseLine :=
  match parts with
  | p0 :: p1 :: p2 :: p3 :: p4 :: _ =>
      Some {| date := p0; description := p3; vendor := extract_vendor p3;
              amount := parse_amount p4; gl_code := Py.replace p1 "." "";
              department := p2; source_file := name |}
  | _ => None
  end.

(** A cell of a table row: not empty, trimmed, without a bar and without
    a line feed. *)
Definition cell (p : str) : Prop :=
  p <> [] /\ trimmed p /\ ~ In "|"%char p /\ ~ In "010"%char p.

(** The number of records of a vendor. *)
Definition occurrences (v : str) (all_expenses : list ExpenseLine) : nat :=
  length (filter (fun e => str_eqb (vendor e) v) all_expenses).

(** A record of a vendor, for examples. *)
Definition sample_line (v : str) : ExpenseLine :=
  {| date := "01/02"; description := v; vendor := v; amount := zero;
     gl_code := "6010"; department := "10"; source_file := "report.md" |}.

(** [wins before rest samples]: each rule of [rest] is found in its
    sample, in which no rule of [before] and no rule standing before it
    in [rest] is found. *)
Fixpoint wins (before rest : list (str * str)) (samples : list str) : bool :=
  match rest, samples with
  | [], [] => true
  | r :: rest', d :: samples' =>
      Re.search (fst r) d &&
      forallb (fun q => negb (Re.search (fst q) d)) before &&
      wins (before ++ [r]) rest' samples'
  | _, _ => false
  end.

(** The vendors of a list of records, each once, in the order in which
    they first occur. *)
Fixpoint first_seen (vendors : list str) : list str :=
  match vendors with
  | [] => []
  | v :: rest => v :: filter (fun w => negb (str_eqb v w)) (first_seen rest)
  end.

(** *** Proof steps used more than once *)

(** A property of all 256 characters, by enumeration. *)
Ltac each_char c :=
  destruct c as [[] [] [] [] [] [] [] []]; vm_compute; reflexivity.

(** Split a goal about [step] along the tests of the loop body. *)
Ltac step_cases :=
  repeat match goal with
         | |- context [if ?c then _ else _] => destruct c eqn:?
         | |- context [match row_parts ?l with _ => _ end] =>
             destruct (row_parts l) as [|? [|? [|? [|? [|? ?]]]]]
         end.

(* ================================================================= *)
(** ** Facts about characters and the matcher *)

Lemma lower_idem (c : ascii) : Re.lower (Re.lower c) = Re.lower c.
Proof. each_char c. Qed.

Lemma is_word_lower (c : ascii) : Re.is_word (Re.lower c) = Re.is_word c.
Proof. each_char c. Qed.

Lemma any_char_lower (c : ascii) :
  Re.accepts Re.AnyChar (Re.lower c) = Re.accepts Re.AnyChar c.
Proof. each_char c. Qed.

Lemma accepts_lower (a : Re.atom) (c : ascii) :
  Re.accepts a (Re.lower c) = Re.accepts a c.
Proof.
  destruct a as [x| |].
  - unfold Re.accepts. now rewrite lower_idem.
  - apply any_char_lower.
  - reflexivity.
Qed.

Lemma at_boundary_lower (prev : option ascii) (s : str) :
  Re.at_boundary (option_map Re.lower prev) (map Re.lower s)
  = Re.at_boundary prev s.
Proof.
  unfold Re.at_boundary. f_equal.
  - destruct prev as [c|]; simpl; [apply is_word_lower | reflexivity].
  - destruct s as [|c s]; simpl; [reflexivity | apply is_word_lower].
Qed.

Section CaseFolding.

Section Star.
Variables (a : Re.atom) (k : option ascii -> str -> bool).
Hypothesis Hk : case_blind k.

Lemma star_case_blind : case_blind (Re.star a k).
Proof.
  intros prev s. revert prev.
  induction s as [|c s IH]; intros prev; simpl.
  - pose proof (Hk prev []) as H. simpl in H. now rewrite H.
  - pose proof (Hk prev (c :: s)) as H. simpl in H.
    pose proof (IH (Some c)) as H'. simpl in H'.
    now rewrite H, accepts_lower, H'.
Qed.

End Star.

Lemma match_here_case_blind (items : list Re.item) :
  case_blind (Re.match_here items).
Proof.
  induction items as [|[a q] rest IH]; intros prev s.
  - reflexivity.
  - assert (Hone : match map Re.lower s with
                   | c :: s' =>
                       Re.accepts a c && Re.match_here rest (Some c) s'
                   | [] => false
                   end
                   = match s with
                     | c :: s' =>
                         Re.accepts a c && Re.match_here rest (Some c) s'
                     | [] => false
                     end).
    { destruct s as [|c s]; simpl; [reflexivity|].
      pose proof (IH (Some c) s) as H'. simpl in H'.
      now rewrite accepts_lower, H'. }
    destruct a as [x| |]; destruct q; cbn [Re.match_here];
      rewrite ?at_boundary_lower, ?Hone, ?(IH prev s);
      try reflexivity;
      apply (star_case_blind _ _ IH prev s).
Qed.

Lemma match_at_case_blind (r : Re.regex) : case_blind (Re.match_at r).
Proof.
  intros prev s. unfold Re.match_at.
  induction r as [|alt r IH]; simpl; [reflexivity|].
  now rewrite match_here_case_blind, IH.
Qed.

Lemma search_from_case_blind (r : Re.regex) : case_blind (Re.search_from r).
Proof.
  intros prev s. revert prev.
  induction s as [|c s IH]; intros prev; simpl.
  - pose proof (match_at_case_blind r prev []) as H. simpl in H.
    now rewrite H.
  - pose proof (match_at_case_blind r prev (c :: s)) as H. simpl in H.
    pose proof (IH (Some c)) as H'. simpl in H'.
    now rewrite H, H'.
Qed.

(** [re.IGNORECASE]: a search sees only the case folding of the
    text. *)
Lemma search_ignores_case (pattern d d' : str) :
  map Re.lower d' = map Re.lower d ->
  Re.search pattern d' = Re.search pattern d.
Proof.
  intros E. unfold Re.search.
  destruct (Re.compile pattern) as [r|]; [|reflexivity].
  rewrite <- (search_from_case_blind r None d').
  rewrite <- (search_from_case_blind r None d).
  simpl. now rewrite E.
Qed.

End CaseFolding.

(** A search succeeds exactly when the pattern matches at some position
    of the text. *)
Lemma search_from_anywhere (r : Re.regex) (s : str) (prev : option ascii) :
  Re.search_from r prev s = true <->
  exists pre post,
    s = pre ++ post /\ Re.match_at r (last_char prev pre) post = true.
Proof.
  revert prev. induction s as [|c s IH]; intros prev; simpl.
  - rewrite orb_false_r. split.
    + intros H. now exists [], [].
    + intros (pre & post & E & H).
      symmetry in E. apply app_eq_nil in E as [-> ->]. exact H.
  - rewrite orb_true_iff, IH. split.
    + intros [H | (pre & post & -> & H)].
      * now exists [], (c :: s).
      * exists (c :: pre), post. split; [reflexivity|].
        unfold last_char in *. simpl.
        destruct (rev pre) as [|x l] eqn:E; simpl; exact H.
    + intros (pre & post & E & H).
      destruct pre as [|x pre]; simpl in E.
      * left. subst post. exact H.
      * right. injection E as -> ->. exists pre, post.
        split; [reflexivity|].
        unfold last_char in *. simpl in H.
        destruct (rev pre) as [|y l] eqn:E; simpl in H; exact H.
Qed.

(* ================================================================= *)
(** ** The vendor classifier *)

Lemma str_eqb_eq (x y : str) : str_eqb x y = true <-> x = y.
Proof.
  unfold str_eqb. destruct (list_eq_dec ascii_dec x y); split;
    intros; congruence.
Qed.

Lemma distinct_NoDup (l : list str) : distinct l = true -> NoDup l.
Proof.
  induction l as [|x l IH]; simpl; intros H; constructor.
  - apply andb_true_iff in H as [H _].
    intros Hin. apply negb_true_iff in H.
    assert (existsb (str_eqb x) l = true) as E; [|congruence].
    apply existsb_exists. exists x. split; [exact Hin|].
    now apply str_eqb_eq.
  - apply IH. now apply andb_true_iff in H as [_ H].
Qed.

(** No two rules of the table stand for the same vendor. *)
Lemma vendors_distinct : NoDup (map snd VENDOR_PATTERNS).
Proof. apply distinct_NoDup. vm_compute. reflexivity. Qed.

(** Every pattern of the table is in the syntax of [Re]. *)
Lemma patterns_compile :
  Forall (fun r => Re.compile (fst r) <> None) VENDOR_PATTERNS.
Proof. repeat constructor; vm_compute; discriminate. Qed.

Lemma first_match_app (before after : list (str * str)) (d : str) :
  first_match (before ++ after) d =
  match first_match before d with
  | Some v => Some v
  | None => first_match after d
  end.
Proof.
  induction before as [|[p v] before IH]; simpl; [reflexivity|].
  now destruct (Re.search p d).
Qed.

Lemma first_match_none (rules : list (str * str)) (d : str) :
  first_match rules d = None <->
  forall p v, In (p, v) rules -> Re.search p d = false.
Proof.
  induction rules as [|[p v] rules IH]; simpl.
  - split; [intros _ ? ? [] | reflexivity].
  - destruct (Re.search p d) eqn:E; split.
    + discriminate.
    + intros H. specialize (H p v (or_introl eq_refl)). congruence.
    + intros H q w [Heq | Hin].
      * now injection Heq as <- <-.
      * now apply (proj1 IH H q w).
    + intros H. apply IH. intros q w Hin. apply (H q w). now right.
Qed.

Lemma first_match_in (rules : list (str * str)) (d v : str) :
  first_match rules d = Some v -> In v (map snd rules).
Proof.
  induction rules as [|[p w] rules IH]; simpl; [discriminate|].
  destruct (Re.search p d).
  - intros H. injection H as ->. now left.
  - intros H. right. now apply IH.
Qed.

Lemma first_match_ignores_case (rules : list (str * str)) (d d' : str) :
  map Re.lower d' = map Re.lower d ->
  first_match rules d' = first_match rules d.
Proof.
  intros E. induction rules as [|[p v] rules IH]; simpl; [reflexivity|].
  now rewrite (search_ignores_case p d d' E), IH.
Qed.

(** When the rule at a place of the table matches, the loop returns at
    that place or before it. *)
Lemma first_match_upto (before after : list (str * str)) (p v d : str) :
  Re.search p d = true ->
  exists w, first_match (before ++ (p, v) :: after) d = Some w /\
            In w (map snd before ++ [v]).
Proof.
  intros Hp. rewrite first_match_app. simpl. rewrite Hp.
  destruct (first_match before d) as [w|] eqn:E.
  - exists w. split; [reflexivity|].
    apply in_or_app. left. now apply first_match_in with d.
  - exists v. split; [reflexivity|]. apply in_or_app. right. now left.
Qed.

(** [C1] The rules are tried from the top of [VENDOR_PATTERNS] and the
    vendor of the first rule whose pattern is found in the description is
    returned: at any rule whose pattern is found, the result is never the
    vendor of a rule declared after it; it is that rule's vendor when no
    rule before it is found; and, the search being case-insensitive, any
    description with the same case folding has the same result. *)
Theorem C1_first_matching_rule_wins
    (description : str) (before after : list (str * str))
    (pattern vendor : str) :
  VENDOR_PATTERNS = before ++ (pattern, vendor) :: after ->
  Re.search pattern description = true ->
  (forall p v, In (p, v) after -> extract_vendor description <> v) /\
  ((forall p v, In (p, v) before -> Re.search p description = false) ->
   extract_vendor description = vendor) /\
  (forall d', map Re.lower d' = map Re.lower description ->
              extract_vendor d' = extract_vendor description).
Proof.
  intros Htable Hfound.
  destruct (first_match_upto before after pattern vendor description Hfound)
    as (w & Hw & Hin).
  assert (Hres : extract_vendor description = w).
  { unfold extract_vendor. now rewrite Htable, Hw. }
  split; [|split].
  - intros p v Hafter Heq.
    pose proof vendors_distinct as Hnd.
    rewrite Htable, map_app in Hnd. simpl in Hnd.
    change (map snd before ++ vendor :: map snd after)
      with (map snd before ++ [vendor] ++ map snd after) in Hnd.
    rewrite app_assoc in Hnd.
    assert (Hv : In v (map snd after)).
    { change v with (snd (p, v)). now apply in_map. }
    rewrite Hres in Heq. subst w.
    revert Hnd Hin Hv. generalize (map snd before ++ [vendor]).
    intros l. induction l as [|x l IH]; simpl; intros Hnd [].
    + subst x. intros Hv. inversion Hnd as [|? ? Hnot _]; subst.
      apply Hnot. apply in_or_app. now right.
    + intros Hv. inversion Hnd; subst. now apply IH.
  - intros Hnone. unfold extract_vendor.
    rewrite Htable, first_match_app.
    rewrite (proj2 (first_match_none before description) Hnone).
    simpl. now rewrite Hfound.
  - intros d' E. unfold extract_vendor.
    rewrite (first_match_ignores_case VENDOR_PATTERNS description d' E).
    now rewrite Htable, Hw.
Qed.

Lemma C1_witness :
  extract_vendor "Hampton Inn Hotel" = "Hampton Inn" /\
  extract_vendor "Hampton Inn Hotel" <> "Hotel" /\
  extract_vendor "HAMPTON inn hotel" = extract_vendor "Hampton Inn Hotel".
Proof.
  destruct (C1_first_matching_rule_wins "Hampton Inn Hotel"
              (firstn 4 VENDOR_PATTERNS) (skipn 5 VENDOR_PATTERNS)
              "\bHampton Inn\b|\bHAMPTON INN\b" "Hampton Inn"
              eq_refl eq_refl) as (Hlater & Hfirst & Hcase).
  split; [|split].
  - apply Hfirst. intros p v Hin. simpl in Hin.
    destruct Hin as [E|[E|[E|[E|[]]]]]; injection E as <- _;
      vm_compute; reflexivity.
  - apply (Hlater "\bHotel\b" "Hotel"). vm_compute. tauto.
  - apply Hcase. vm_compute. reflexivity.
Defined.

(** *** The fallback *)

Lemma split_ws_nonempty (s : str) : Forall (fun w => w <> []) (Py.split_ws s).
Proof.
  induction s as [|c s IH]; simpl; [constructor|].
  destruct (Py.isspace c); [exact IH|].
  destruct s as [|c' s']; [repeat constructor; discriminate|].
  destruct (Py.isspace c').
  - constructor; [discriminate | exact IH].
  - destruct (Py.split_ws (c' :: s')) as [|w ws].
    + repeat constructor; discriminate.
    + inversion IH; subst. constructor; [discriminate | assumption].
Qed.

(** The loop over the prefixes removes [words[0]] exactly when it starts
    with one of them. *)
Lemma remove_prefix_spec (skips : list str) (word0 : str) (rest : list str) :
  remove_prefix skips word0 rest =
  if existsb (Py.startswith word0) skips then rest else word0 :: rest.
Proof.
  induction skips as [|skip skips IH]; simpl; [reflexivity|].
  now destruct (Py.startswith word0 skip).
Qed.

(** The two ways out of [extract_vendor] after the rules. *)
Lemma extract_vendor_fallback (d : str) :
  first_match VENDOR_PATTERNS d = None ->
  extract_vendor d = Spec.fallback d.
Proof.
  intros H. unfold extract_vendor, Spec.fallback. rewrite H.
  destruct (Py.split_ws d) as [|word0 rest]; [reflexivity|].
  rewrite remove_prefix_spec. unfold Spec.begins_with_noise.
  destruct (existsb (Py.startswith word0) SKIP_PREFIXES).
  - destruct rest as [|t1 [|t2 rest]]; reflexivity.
  - destruct rest as [|t2 rest]; reflexivity.
Qed.

(** [C7] When no rule matches, the classifier returns what the
    specification's fallback returns: the description is split on
    whitespace, a first token that begins with a noise prefix is dropped,
    and the result is the first two remaining tokens joined by one space,
    or the only remaining token, or Unknown.  The two examples of the
    specification follow. *)
Theorem C7_fallback :
  (forall description,
     (forall p v, In (p, v) VENDOR_PATTERNS ->
                  Re.search p description = false) ->
     extract_vendor description = Spec.fallback description) /\
  extract_vendor "PAYPAL *SOMECO monthly fee" = "*SOMECO monthly" /\
  extract_vendor "" = "Unknown".
Proof.
  split; [|split].
  - intros d H. apply extract_vendor_fallback. now apply first_match_none.
  - vm_compute. reflexivity.
  - vm_compute. reflexivity.
Qed.

Lemma C7_witness :
  extract_vendor "XYZ123 Random Vendor Name" = "XYZ123 Random".
Proof.
  rewrite (proj1 C7_fallback "XYZ123 Random Vendor Name").
  - vm_compute. reflexivity.
  - apply first_match_none. vm_compute. reflexivity.
Defined.

(** Every vendor of the table is a non-empty text. *)
Lemma vendors_nonempty : Forall (fun v => v <> []) (map snd VENDOR_PATTERNS).
Proof. repeat constructor; discriminate. Qed.

Lemma fallback_nonempty (d : str) : Spec.fallback d <> [].
Proof.
  unfold Spec.fallback.
  pose proof (split_ws_nonempty d) as Hall.
  destruct (Py.split_ws d) as [|first others]; [discriminate|].
  inversion Hall as [|? ? Hfirst Hothers]; subst.
  assert (Hcase : forall ts, Forall (fun w => w <> []) ts ->
            match ts with
            | t1 :: t2 :: _ => t1 ++ " " ++ t2
            | [t] => t
            | [] => ("Unknown" : str)
            end <> []).
  { intros [|t1 [|t2 ts]] Hts; [discriminate| |];
      inversion Hts as [|? ? Ht1 _]; subst; [exact Ht1|].
    destruct t1; [contradiction | discriminate]. }
  destruct (Spec.begins_with_noise first).
  - now apply (Hcase others).
  - apply (Hcase (first :: others)). now constructor.
Qed.

(** [C9] The classifier never returns the empty text: a vendor of the
    table is not empty, and the fallback returns a join of non-empty
    tokens, one non-empty token, or Unknown. *)
Theorem C9_vendor_nonempty (description : str) :
  extract_vendor description <> [].
Proof.
  destruct (first_match VENDOR_PATTERNS description) as [v|] eqn:E.
  - unfold extract_vendor. rewrite E.
    apply first_match_in in E.
    pose proof vendors_nonempty as Hall.
    rewrite Forall_forall in Hall. now apply Hall.
  - rewrite (extract_vendor_fallback description E).
    apply fallback_nonempty.
Qed.

(* ================================================================= *)
(** ** The amount parser *)

Lemma replace_by_nothing (s : str) (old : ascii) :
  Py.replace s old [] = filter (fun c => negb (c =? old)%char) s.
Proof.
  induction s as [|c s IH]; simpl; [reflexivity|].
  rewrite IH. now destruct (c =? old)%char.
Qed.

Lemma filter_filter (f g : ascii -> bool) (s : str) :
  filter g (filter f s) = filter (fun c => f c && g c) s.
Proof.
  induction s as [|c s IH]; simpl; [reflexivity|].
  destruct (f c); simpl; [|exact IH].
  destruct (g c); now rewrite IH.
Qed.

(** The two [replace] calls remove exactly the dollar signs and the
    commas. *)
Lemma clean_amount (s : str) :
  Py.replace (Py.replace s "$" "") "," "" =
  filter (fun c => negb ((c =? "$")%char || (c =? ",")%char)) s.
Proof.
  change (lit "") with (@nil ascii).
  rewrite !replace_by_nothing, filter_filter.
  apply filter_ext. intros c. now rewrite negb_orb.
Qed.

(** [C6] Amount parsing removes the currency symbol and the thousands
    separators, trims, and reads the result as a decimal number; where
    [float] would raise, the result is 0.0.  The three examples of the
    specification follow: 1234.56 (123456e-2), a float equal to 0.0, and
    0.0. *)
Theorem C6_parse_amount :
  (forall s, parse_amount s = Spec.amount s) /\
  (forall s,
     Py.float_of_str
       (Py.strip (Py.replace (Py.replace s "$" "") "," "")) = None ->
     parse_amount s = zero) /\
  parse_amount "$1,234.56" = Py.Finite false 123456 (-2) /\
  Py.float_eqb (parse_amount "$0.00") zero = true /\
  parse_amount "garbage" = zero.
Proof.
  split; [|split; [|split; [|split]]].
  - intros s. unfold parse_amount, Spec.amount. now rewrite clean_amount.
  - intros s H. unfold parse_amount. now rewrite H.
  - vm_compute. reflexivity.
  - vm_compute. reflexivity.
  - vm_compute. reflexivity.
Qed.

Lemma C6_witness : parse_amount "n/a" = zero.
Proof.
  apply (proj1 (proj2 C6_parse_amount) "n/a"). vm_compute. reflexivity.
Defined.

(* ================================================================= *)
(** ** Facts about prefixes, substrings, trimming and splitting *)

Lemma startswith_iff (s prefix : str) :
  Py.startswith s prefix = true <-> exists rest, s = prefix ++ rest.
Proof.
  revert s. induction prefix as [|p prefix IH]; intros s; simpl.
  - split; [intros _; now exists s | now destruct s].
  - destruct s as [|c s].
    + split; [discriminate | intros (rest & E); discriminate].
    + simpl. rewrite andb_true_iff, Ascii.eqb_eq, IH. split.
      * intros (-> & rest & ->). now exists rest.
      * intros (rest & E). injection E as -> ->. split; [reflexivity|].
        now exists rest.
Qed.

Lemma contains_iff (sub s : str) :
  Py.contains sub s = true <-> exists a b, s = a ++ sub ++ b.
Proof.
  induction s as [|c s IH]; cbn [Py.contains].
  - rewrite orb_false_r, startswith_iff. split.
    + intros (rest & E). now exists [], rest.
    + intros (a & b & E). symmetry in E.
      apply app_eq_nil in E as [-> E]. now exists b.
  - rewrite orb_true_iff, startswith_iff, IH. split.
    + intros [(rest & E) | (a & b & ->)].
      * now exists [], rest.
      * now exists (c :: a), b.
    + intros (a & b & E). destruct a as [|x a]; simpl in E.
      * left. now exists b.
      * right. injection E as -> ->. now exists a, b.
Qed.

Lemma lstrip_suffix (s : str) : exists a, s = a ++ Py.lstrip s.
Proof.
  induction s as [|c s (a & IH)]; simpl; [now exists []|].
  destruct (Py.isspace c).
  - exists (c :: a). simpl. now f_equal.
  - now exists [].
Qed.

(** The trimmed text is a part of the text. *)
Lemma strip_infix (s : str) : exists a b, s = a ++ Py.strip s ++ b.
Proof.
  unfold Py.strip, Py.rstrip.
  destruct (lstrip_suffix s) as (a & Ha).
  destruct (lstrip_suffix (rev (Py.lstrip s))) as (b & Hb).
  exists a, (rev b).
  rewrite <- rev_app_distr, <- Hb, rev_involutive. exact Ha.
Qed.

Lemma contains_strip (sub s : str) :
  Py.contains sub (Py.strip s) = true -> Py.contains sub s = true.
Proof.
  rewrite !contains_iff. intros (a & b & E).
  destruct (strip_infix s) as (a' & b' & Hs).
  exists (a' ++ a), (b ++ b'). rewrite Hs at 1. rewrite E.
  now rewrite <- !app_assoc.
Qed.

Lemma split_not_nil (s : str) (sep : ascii) : Py.split s sep <> [].
Proof.
  destruct s as [|c s]; simpl; [discriminate|].
  destruct (c =? sep)%char; [discriminate|].
  destruct (Py.split s sep); discriminate.
Qed.

(** Splitting a text at a separator splits its lines. *)
Lemma split_app (a b : str) (sep : ascii) :
  Py.split (a ++ sep :: b) sep = Py.split a sep ++ Py.split b sep.
Proof.
  induction a as [|c a IH]; simpl.
  - now rewrite Ascii.eqb_refl.
  - rewrite IH. destruct (c =? sep)%char; [reflexivity|].
    pose proof (split_not_nil a sep) as Hne.
    destruct (Py.split a sep) as [|f fs]; [contradiction | reflexivity].
Qed.

(* ================================================================= *)
(** ** The line scanner *)

(** Empty lines are skipped. *)
Lemma step_blank (name : str) (st : scan) (raw : str) :
  Py.strip raw = [] -> step name st raw = st.
Proof. intros E. unfold step. now rewrite E. Qed.

Lemma header_nonempty (line : str) :
  Spec.is_header line = true -> nonempty line = true.
Proof. destruct line; [discriminate | reflexivity]. Qed.

(** A header row opens the table, whatever the state. *)
Lemma step_header (name : str) (st : scan) (raw : str) :
  Spec.is_header (Py.strip raw) = true ->
  step name st raw =
  {| in_table := true; header_found := true; expenses := expenses st |}.
Proof.
  intros H. unfold step.
  rewrite (header_nonempty _ H). unfold Spec.is_header in H.
  now rewrite H.
Qed.

(** Outside the table, only a header row changes anything. *)
Lemma step_outside (name : str) (st : scan) (raw : str) :
  in_table st = false ->
  Spec.is_header (Py.strip raw) = false ->
  step name st raw = st.
Proof.
  intros Hout H. unfold step. unfold Spec.is_header in H.
  rewrite H, Hout. simpl. now destruct (negb (nonempty (Py.strip raw))).
Qed.

(** What a line does depends on the state only through [in_table], and
    records are only ever added at the end. *)
Lemma step_mode (name : str) (st : scan) (raw : str) :
  in_table (step name st raw)
  = in_table (step name (mode (in_table st)) raw) /\
  expenses (step name st raw)
  = expenses st ++ expenses (step name (mode (in_table st)) raw).
Proof.
  destruct st as [inside found recs]. unfold step, mode. simpl.
  destruct inside; simpl; step_cases; simpl;
    rewrite ?app_nil_r; split; reflexivity.
Qed.

Lemma run_mode (name : str) (lines : list str) (st : scan) :
  in_table (run name st lines)
  = in_table (run name (mode (in_table st)) lines) /\
  expenses (run name st lines)
  = expenses st ++ expenses (run name (mode (in_table st)) lines).
Proof.
  revert st. induction lines as [|l lines IH]; intros st.
  - simpl. now rewrite app_nil_r.
  - unfold run in *. simpl.
    destruct (step_mode name st l) as [Hin Hex].
    destruct (IH (step name st l)) as [IH1 IH2].
    destruct (IH (step name (mode (in_table st)) l)) as [IH3 IH4].
    rewrite IH1, IH2, IH3, IH4, Hin, Hex. split; [reflexivity|].
    now rewrite app_assoc.
Qed.

Lemma run_app (name : str) (st : scan) (l1 l2 : list str) :
  run name st (l1 ++ l2) = run name (run name st l1) l2.
Proof. apply fold_left_app. Qed.

(** A scan that begins with a header row adds the same records from any
    state. *)
Lemma run_from_header (name : str) (st : scan) (h : str) (lines : list str) :
  Spec.is_header (Py.strip h) = true ->
  expenses (run name st (h :: lines))
  = expenses st ++ expenses (run name start (h :: lines)).
Proof.
  intros H. unfold run. simpl. rewrite !(step_header _ _ _ H).
  match goal with
  | |- expenses (fold_left _ _ ?a) = _ ++ expenses (fold_left _ _ ?b) =>
      destruct (run_mode name lines a) as [_ Ha];
      destruct (run_mode name lines b) as [_ Hb]
  end.
  unfold run in Ha, Hb. rewrite Ha, Hb. reflexivity.
Qed.

(** A text without a header row, line by line. *)
Lemma run_without_header (name : str) (lines : list str) :
  (forall l, In l lines -> Spec.is_header (Py.strip l) = false) ->
  run name start lines = start.
Proof.
  induction lines as [|l lines IH]; intros H; [reflexivity|].
  unfold run in *. simpl.
  rewrite (step_outside name start l eq_refl (H l (or_introl eq_refl))).
  apply IH. intros l' Hin. apply H. now right.
Qed.

(** [C8] A text in which no line contains both header markers yields no
    record: [parse_markdown_file] returns the empty list (and, being a
    total function, raises nothing). *)
Theorem C8_no_header_no_records (content name : str) :
  (forall l, In l (Py.split content "010") ->
             ~ (Py.contains "| Date |" l = true /\
                Py.contains "GL Acct" l = true)) ->
  parse_markdown_file content name = [].
Proof.
  intros H. unfold parse_markdown_file.
  change (fold_left (step name) (Py.split content "010") start)
    with (run name start (Py.split content "010")).
  rewrite run_without_header; [reflexivity|].
  intros l Hin. specialize (H l Hin).
  unfold Spec.is_header.
  destruct (Py.contains "| Date |" (Py.strip l)) eqn:E1; [|reflexivity].
  destruct (Py.contains "GL Acct" (Py.strip l)) eqn:E2; [|reflexivity].
  exfalso. apply H. split; now apply contains_strip.
Qed.

Lemma C8_witness :
  parse_markdown_file
    (document [ "# Travel notes" : str; "| Date | Amount |" : str;
                "| 01/02 | $10.00 |" : str; "**Total** $10.00" : str ])
    "notes.md" = [].
Proof.
  apply C8_no_header_no_records. intros l Hin [H1 H2].
  vm_compute in Hin.
  destruct Hin as [E|[E|[E|[E|[]]]]]; subst l;
    vm_compute in H1, H2; first [discriminate H1 | discriminate H2].
Defined.

(** *** Several tables in one document *)

Lemma parse_app (a b name : str) :
  starts_with_header b = true ->
  parse_markdown_file (a ++ NL ++ b) name
  = parse_markdown_file a name ++ parse_markdown_file b name.
Proof.
  unfold starts_with_header, parse_markdown_file. intros H.
  change (a ++ NL ++ b) with (a ++ "010"%char :: b).
  rewrite split_app, fold_left_app.
  destruct (Py.split b "010") as [|h lines]; [discriminate|].
  apply (run_from_header name _ h lines H).
Qed.

Lemma starts_with_header_join (t : str) (ts : list str) :
  starts_with_header t = true ->
  starts_with_header (Py.join NL (t :: ts)) = true.
Proof.
  destruct ts as [|t' ts]; [trivial|].
  unfold starts_with_header.
  change (Py.join NL (t :: t' :: ts))
    with (t ++ "010"%char :: Py.join NL (t' :: ts)).
  rewrite split_app.
  now destruct (Py.split t "010").
Qed.

Lemma parse_join (name : str) (tables : list str) (first : str) :
  Forall (fun t => starts_with_header t = true) tables ->
  parse_markdown_file (Py.join NL (first :: tables)) name
  = parse_markdown_file first name ++
    concat (map (fun t => parse_markdown_file t name) tables).
Proof.
  revert first. induction tables as [|t tables IH]; intros first H.
  - simpl. now rewrite app_nil_r.
  - inversion H as [|? ? Ht Hrest]; subst.
    change (Py.join NL (first :: t :: tables))
      with (first ++ NL ++ Py.join NL (t :: tables)).
    rewrite parse_app by now apply starts_with_header_join.
    now rewrite (IH t Hrest).
Qed.

(** [C10] The header test comes before the tests that depend on the
    state, so a header row opens the table from either state and adds no
    record; hence, whatever text comes first and however it ends, the
    records of a document made of that text and of tables that each begin
    with a header row are the records of the parts, in order. *)
Theorem C10_tables_concatenate
    (name first : str) (tables : list str) :
  Forall (fun t => starts_with_header t = true) tables ->
  (forall st raw,
     Spec.is_header (Py.strip raw) = true ->
     in_table (step name st raw) = true /\
     expenses (step name st raw) = expenses st) /\
  parse_markdown_file (document (first :: tables)) name
  = parse_markdown_file first name ++
    concat (map (fun t => parse_markdown_file t name) tables).
Proof.
  intros H. split.
  - intros st raw Hh. now rewrite (step_header name st raw Hh).
  - now apply parse_join.
Qed.

Lemma C10_witness :
  map date
    (parse_markdown_file
       (document
          [ document [ "# January" : str ];
            document
              [ "| Date | GL Acct/Job | Dept/Phase | Description | Amount |"
                : str;
                "|------|------|------|------|------|" : str;
                "| 01/02 | 6010 | 10 | Delta flight | $310.20 |" : str;
                "| **Total** | | | | $310.20 |" : str;
                "Approved by the manager" : str ];
            document
              [ "| Date | GL Acct/Job | Dept/Phase | Description | Amount |"
                : str;
                "|------|------|------|------|------|" : str;
                "| 02/03 | 6020 | 10 | Hampton Inn | $120.00 |" : str ] ])
       "report.md")
  = [ "01/02" : str; "02/03" : str ].
Proof.
  match goal with
  | |- map date (parse_markdown_file (document (?first :: ?tables)) ?name)
       = _ =>
      assert (H : Forall (fun t => starts_with_header t = true) tables)
        by (repeat first [ apply Forall_nil
                         | apply Forall_cons; [vm_compute; reflexivity|] ]);
      rewrite (proj2 (C10_tables_concatenate name first tables H))
  end.
  vm_compute. reflexivity.
Defined.

(** *** Leaving the table *)

Lemma startswith_nonempty (line prefix : str) :
  prefix <> [] -> Py.startswith line prefix = true -> nonempty line = true.
Proof.
  destruct prefix as [|p prefix]; [contradiction|].
  destruct line; [discriminate | reflexivity].
Qed.

(** A line that begins with the separator prefix begins with a bar. *)
Lemma separator_starts_with_bar (line : str) :
  Py.startswith line "|---" = true -> Py.startswith line "|" = true.
Proof.
  rewrite !startswith_iff. intros (rest & ->). now exists ("---" ++ rest).
Qed.

(** The claim as the specification words it fails on a line that is also
    a header row: the header test comes first, so a line that carries the
    totals marker and does not begin with a bar, but carries both header
    markers, leaves the table open. *)
Lemma C4_counterexample :
  let st := {| in_table := true; header_found := true; expenses := [] |} in
  let line : str := "**Total | Date | GL Acct" in
  in_table st = true /\
  Py.strip line <> [] /\
  Py.contains "**Total" (Py.strip line) = true /\
  Py.startswith (Py.strip line) "|" = false /\
  in_table (step "report.md" st line) = true.
Proof. vm_compute. repeat split; try reflexivity. discriminate. Qed.

(** [C4] Inside the table, a line that is neither a header row nor a line
    beginning with the separator prefix, and that carries the totals
    marker or does not begin with a bar, closes the table and adds no
    record; an empty or whitespace-only line leaves every state as it
    is.  The line is taken as the loop sees it, trimmed. *)
Theorem C4_table_end (name : str) (st : scan) (raw : str) :
  (Py.strip raw = [] -> step name st raw = st) /\
  (in_table st = true ->
   Py.strip raw <> [] ->
   Spec.is_header (Py.strip raw) = false ->
   Py.startswith (Py.strip raw) "|---" = false ->
   Py.contains "**Total" (Py.strip raw) = true \/
   Py.startswith (Py.strip raw) "|" = false ->
   in_table (step name st raw) = false /\
   expenses (step name st raw) = expenses st).
Proof.
  split; [apply step_blank|].
  intros Hin Hne Hh Hsep Hend.
  assert (Hn : nonempty (Py.strip raw) = true).
  { destruct (Py.strip raw); [contradiction | reflexivity]. }
  assert (Hor : Py.contains "**Total" (Py.strip raw)
                || negb (Py.startswith (Py.strip raw) "|") = true).
  { apply orb_true_iff. destruct Hend as [H|H]; [now left|right].
    now rewrite H. }
  unfold Spec.is_header in Hh. unfold step.
  rewrite Hn, Hh, Hin, Hsep, Hor. now split.
Qed.

Lemma C4_witness :
  let inside := {| in_table := true; header_found := true; expenses := [] |} in
  step "report.md" inside "   " = inside /\
  in_table (step "report.md" inside "| **Total** | | | | $310.20 |") = false /\
  in_table (step "report.md" inside "Approved by the manager") = false.
Proof.
  intros inside. split; [|split].
  - apply (proj1 (C4_table_end "report.md" inside "   ")).
    vm_compute. reflexivity.
  - apply (proj2 (C4_table_end "report.md" inside
                    "| **Total** | | | | $310.20 |"));
      try (vm_compute; reflexivity).
    + vm_compute. discriminate.
    + left. vm_compute. reflexivity.
  - apply (proj2 (C4_table_end "report.md" inside
                    "Approved by the manager"));
      try (vm_compute; reflexivity).
    + vm_compute. discriminate.
    + right. vm_compute. reflexivity.
Defined.

(** *** The separator row *)

(** Inside the table, a line that begins with the separator prefix (a
    bar and three hyphens) is consumed: it adds no record and the table
    stays open. *)
Lemma separator_prefix_consumed (name : str) (st : scan) (raw : str) :
  in_table st = true ->
  Py.startswith (Py.strip raw) "|---" = true ->
  in_table (step name st raw) = true /\
  expenses (step name st raw) = expenses st.
Proof.
  intros Hin Hsep. unfold step.
  assert (Hn : nonempty (Py.strip raw) = true).
  { apply (startswith_nonempty _ "|---"); [|exact Hsep].
    vm_compute. discriminate. }
  rewrite Hn, Hin, Hsep. cbn [negb andb].
  destruct (Py.contains "| Date |" (Py.strip raw)
            && Py.contains "GL Acct" (Py.strip raw)); now split.
Qed.

(** [C5] Divider rows that are not skipped.  The claim, and the comment
    of the script on its test ("Skip separator line"), have every divider
    row consumed without a record.  The test is for the prefix of a bar
    and three hyphens only: a divider row of five columns written with
    one hyphen in each cell, made of bars and hyphens alone, or written
    with a space around each cell, does not begin with that prefix, is
    read as a data row and yields a record made of hyphens.  A divider
    row that begins with the prefix is skipped. *)
Theorem C5_divider_row_read_as_data :
  let header : str :=
    "| Date | GL Acct/Job | Dept/Phase | Description | Amount |" in
  let row : str := "| 01/02 | 6010 | 10 | Hotel stay | $10.00 |" in
  Spec.separator_only "|-|-|-|-|-|" = true /\
  map (fun e => (date e, gl_code e, department e, description e, vendor e,
                 amount e))
    (parse_markdown_file (document [header; "|-|-|-|-|-|" : str]) "report.md")
  = [ ("-" : str, "-" : str, "-" : str, "-" : str, "-" : str, zero) ] /\
  map date
    (parse_markdown_file
       (document [header; "| --- | --- | --- | --- | --- |" : str; row])
       "report.md")
  = [ "---" : str; "01/02" : str ] /\
  map date
    (parse_markdown_file
       (document [header; "|---|---|---|---|---|" : str; row]) "report.md")
  = [ "01/02" : str ].
Proof. vm_compute. repeat split. Qed.

(** *** The cells of a row *)

Lemma drop_empty_head_split (fields : list str) :
  exists pre,
    fields = pre ++ Spec.drop_empty_head fields /\ (pre = [] \/ pre = [[]]).
Proof.
  destruct fields as [|[|c f] rest]; simpl.
  - exists []. auto.
  - exists [[]]. auto.
  - exists []. auto.
Qed.

Lemma filter_nonempty_all (cells : list str) :
  Forall (fun cell => cell <> []) cells -> filter nonempty cells = cells.
Proof.
  induction 1 as [|cell cells Hc _ IH]; simpl; [reflexivity|].
  destruct cell; [contradiction|]. simpl. now rewrite IH.
Qed.

Lemma filter_nonempty_edge (pre : list str) :
  pre = [] \/ pre = [[]] -> filter nonempty (map Py.strip pre) = [].
Proof. intros [-> | ->]; reflexivity. Qed.

(** On a row none of whose cells is blank, the script's cells are the
    specification's fields. *)
Lemma row_parts_agree (line : str) :
  Forall (fun cell => cell <> []) (Spec.row_fields line) ->
  row_parts line = Spec.row_fields line.
Proof.
  unfold row_parts, Spec.row_fields.
  destruct (drop_empty_head_split (Py.split line "|")) as (pre & E1 & Hpre).
  set (d1 := Spec.drop_empty_head (Py.split line "|")) in *.
  destruct (drop_empty_head_split (rev d1)) as (post & E2 & Hpost).
  set (d2 := Spec.drop_empty_head (rev d1)) in *.
  intros Hall.
  assert (Hd1 : d1 = rev d2 ++ rev post).
  { rewrite <- rev_app_distr, <- E2. now rewrite rev_involutive. }
  rewrite E1, Hd1, !map_app, !filter_app.
  rewrite (filter_nonempty_edge pre Hpre).
  rewrite (filter_nonempty_all _ Hall).
  assert (Hrev : rev post = [] \/ rev post = [[]]).
  { destruct Hpost as [-> | ->]; auto. }
  rewrite (filter_nonempty_edge _ Hrev).
  now rewrite app_nil_r.
Qed.

(** Inside the table, a row that is no header, separator or totals line
    adds one record when it has five cells or more, made of the first
    five, and nothing otherwise. *)
Lemma step_data_row (name : str) (st : scan) (raw : str) :
  in_table st = true ->
  Spec.is_header (Py.strip raw) = false ->
  Py.startswith (Py.strip raw) "|---" = false ->
  Py.contains "**Total" (Py.strip raw) = false ->
  Py.startswith (Py.strip raw) "|" = true ->
  step name st raw =
  match row_parts (Py.strip raw) with
  | p0 :: p1 :: p2 :: p3 :: p4 :: _ =>
      {| in_table := true; header_found := header_found st;
         expenses := expenses st ++
           [ {| date := p0; description := p3;
                vendor := extract_vendor p3; amount := parse_amount p4;
                gl_code := Py.replace p1 "." ""; department := p2;
                source_file := name |} ] |}
  | _ => st
  end.
Proof.
  intros Hin Hh Hsep Htot Hbar.
  assert (Hn : nonempty (Py.strip raw) = true).
  { apply (startswith_nonempty _ "|"); [|exact Hbar].
    vm_compute. discriminate. }
  unfold Spec.is_header in Hh. unfold step.
  rewrite Hn, Hh, Hin, Hsep, Htot, Hbar. cbn [negb andb orb].
  now destruct (row_parts (Py.strip raw)) as [|? [|? [|? [|? [|? ?]]]]].
Qed.

(** A row of fewer than five cells is passed over. *)
Lemma short_row_dropped (name : str) (st : scan) (raw : str) :
  (length (row_parts (Py.strip raw)) < 5)%nat ->
  in_table st = true ->
  Py.startswith (Py.strip raw) "|" = true ->
  expenses (step name st raw) = expenses st.
Proof.
  intros Hlen Hin Hbar.
  destruct (step_mode name st raw) as [_ ->]. rewrite Hin.
  unfold step, mode. cbn [in_table header_found expenses].
  destruct (row_parts (Py.strip raw)) as [|? [|? [|? [|? [|? ?]]]]];
    simpl in Hlen; try lia;
    step_cases; apply app_nil_r.
Qed.

(** The header row of the reports. *)
Lemma header_row_is_header :
  Spec.is_header
    "| Date | GL Acct/Job | Dept/Phase | Description | Amount |" = true.
Proof. vm_compute. reflexivity. Qed.

(** [C2] A row with a blank cell in the middle.  Split on the bar with
    only the two edge fields removed it has five fields, the third one
    empty, so the claim has it yield a record with an empty department.
    The script removes every empty cell: four cells are left and the row
    yields nothing; with a sixth cell the row yields a record whose
    cells have moved one column to the left. *)
Theorem C2_blank_cell_row :
  let header : str :=
    "| Date | GL Acct/Job | Dept/Phase | Description | Amount |" in
  let row : str := "| 01/02 | 6010 |  | Hotel stay | $10.00 |" in
  let row6 : str := "| 01/02 | 6010 |  | Hotel stay | $10.00 | paid |" in
  Spec.row_fields row
  = [ "01/02" : str; "6010" : str; "" : str; "Hotel stay" : str;
      "$10.00" : str ] /\
  row_parts row
  = [ "01/02" : str; "6010" : str; "Hotel stay" : str; "$10.00" : str ] /\
  parse_markdown_file (document [header; row]) "report.md" = [] /\
  map (fun e => (department e, description e, amount e))
    (parse_markdown_file (document [header; row6]) "report.md")
  = [ ("Hotel stay" : str, "$10.00" : str, zero) ].
Proof. vm_compute. repeat split. Qed.

(** *** The GL code *)

Lemma lstrip_by_suffix (p : ascii -> bool) (s : str) :
  exists a, s = a ++ Py.lstrip_by p s /\ forallb p a = true.
Proof.
  induction s as [|c s (a & IH & Ha)]; simpl; [now exists []|].
  destruct (p c) eqn:E.
  - exists (c :: a). simpl. rewrite E, Ha. split; [now f_equal | reflexivity].
  - now exists [].
Qed.

Lemma filter_none (p : ascii -> bool) (s : str) :
  forallb p s = true -> filter (fun c => negb (p c)) s = [].
Proof.
  induction s as [|c s IH]; simpl; [reflexivity|].
  intros H. apply andb_true_iff in H as [Hc Hs]. rewrite Hc. simpl.
  now apply IH.
Qed.

Lemma filter_every (p : ascii -> bool) (s : str) :
  forallb (fun c => negb (p c)) s = true ->
  filter (fun c => negb (p c)) s = s.
Proof.
  induction s as [|c s IH]; simpl; [reflexivity|].
  intros H. apply andb_true_iff in H as [Hc Hs]. rewrite Hc.
  now rewrite IH.
Qed.

(** On a field whose periods all stand at its end, removing every period
    is removing the trailing ones. *)
Lemma gl_code_agree (field : str) :
  forallb (fun c => negb (c =? ".")%char)
    (Spec.strip_trailing_periods field) = true ->
  Py.replace field "." "" = Spec.strip_trailing_periods field.
Proof.
  unfold Spec.strip_trailing_periods. intros H.
  destruct (lstrip_by_suffix (Ascii.eqb ".") (rev field)) as (a & E & Ha).
  set (body := Py.lstrip_by (Ascii.eqb ".") (rev field)) in *.
  assert (Hf : field = rev body ++ rev a).
  { rewrite <- rev_app_distr, <- E. now rewrite rev_involutive. }
  change (lit "") with (@nil ascii).
  rewrite replace_by_nothing. rewrite Hf at 1. rewrite filter_app.
  assert (Hswap : forall s, filter (fun c => negb (c =? ".")%char) s
                          = filter (fun c => negb ("." =? c)%char) s).
  { intros s. apply filter_ext. intros c. now rewrite Ascii.eqb_sym. }
  rewrite (Hswap (rev a)), (filter_none (Ascii.eqb ".") (rev a)).
  - rewrite app_nil_r. now apply (filter_every (fun c => (c =? ".")%char)).
  - rewrite forallb_forall in *. intros c Hc. apply Ha.
    now apply in_rev.
Qed.

(** [C3] A GL code with a period inside.  The claim has the record keep
    the field but for its trailing periods; the script removes every
    period of the field. *)
Theorem C3_interior_period :
  let header : str :=
    "| Date | GL Acct/Job | Dept/Phase | Description | Amount |" in
  let row : str := "| 01/02 | 60.10. | 10 | Hotel stay | $10.00 |" in
  Spec.strip_trailing_periods "60.10." = "60.10" /\
  map gl_code (parse_markdown_file (document [header; row]) "report.md")
  = [ "6010" : str ].
Proof. vm_compute. repeat split. Qed.

(* ================================================================= *)
(** ** Further properties of the classifier *)

Lemma split_ws_no_space (s : str) : Forall no_space (Py.split_ws s).
Proof.
  induction s as [|c s IH]; simpl; [constructor|].
  destruct (Py.isspace c) eqn:Ec; [exact IH|].
  assert (Hc : no_space [c]) by (repeat constructor; exact Ec).
  destruct s as [|c' s']; [now repeat constructor|].
  destruct (Py.isspace c').
  - now constructor.
  - destruct (Py.split_ws (c' :: s')) as [|w ws]; [now repeat constructor|].
    inversion IH; subst. constructor; [|assumption].
    now constructor.
Qed.

(** The text is empty or begins with a character that is no space. *)
Lemma lstrip_fixed (s : str) :
  match s with c :: _ => Py.isspace c = false | [] => True end ->
  Py.lstrip s = s.
Proof. destruct s as [|c s]; simpl; [reflexivity|]. now intros ->. Qed.

Lemma strip_fixed (s : str) :
  match s with c :: _ => Py.isspace c = false | [] => True end ->
  match rev s with c :: _ => Py.isspace c = false | [] => True end ->
  trimmed s.
Proof.
  intros H1 H2. unfold trimmed, Py.strip, Py.rstrip.
  rewrite (lstrip_fixed s H1), (lstrip_fixed (rev s) H2).
  apply rev_involutive.
Qed.

Lemma no_space_head (w rest : str) :
  w <> [] -> no_space w ->
  match w ++ rest with c :: _ => Py.isspace c = false | [] => True end.
Proof.
  destruct w as [|c w]; [contradiction|]. intros _ H. now inversion H.
Qed.

Lemma no_space_rev (w : str) : no_space w -> no_space (rev w).
Proof. apply Forall_rev. Qed.

Lemma rev_not_nil (w : str) : w <> [] -> rev w <> [].
Proof.
  intros H E. apply H. rewrite <- (rev_involutive w), E. reflexivity.
Qed.

(** Two words joined by one space: trimmed, with no space character but
    that one. *)
Lemma joined_words (t1 t2 : str) :
  t1 <> [] -> no_space t1 -> t2 <> [] -> no_space t2 ->
  trimmed (t1 ++ " " ++ t2) /\
  Forall (fun c => Py.isspace c = true -> c = " "%char) (t1 ++ " " ++ t2).
Proof.
  intros N1 S1 N2 S2. split.
  - apply strip_fixed.
    + now apply no_space_head.
    + rewrite !rev_app_distr, <- app_assoc.
      apply no_space_head; [now apply rev_not_nil | now apply no_space_rev].
  - apply Forall_app. split; [|constructor; [reflexivity|]].
    + eapply Forall_impl; [|exact S1]. simpl. intros c -> E. discriminate.
    + eapply Forall_impl; [|exact S2]. simpl. intros c -> E. discriminate.
Qed.

Lemma single_word (t : str) :
  t <> [] -> no_space t ->
  trimmed t /\ Forall (fun c => Py.isspace c = true -> c = " "%char) t.
Proof.
  intros N S. split.
  - apply strip_fixed.
    + rewrite <- (app_nil_r t). now apply no_space_head.
    + rewrite <- (app_nil_r (rev t)).
      apply no_space_head; [now apply rev_not_nil | now apply no_space_rev].
  - eapply Forall_impl; [|exact S]. simpl. intros c -> E. discriminate.
Qed.

(** The vendors of the table are trimmed and hold no space character but
    the plain space. *)
Lemma vendors_trimmed :
  forall v, In v (map snd VENDOR_PATTERNS) ->
    trimmed v /\ Forall (fun c => Py.isspace c = true -> c = " "%char) v.
Proof.
  assert (H : forallb
                (fun v => str_eqb (Py.strip v) v &&
                          forallb (fun c => implb (Py.isspace c)
                                              (c =? " ")%char) v)
                (map snd VENDOR_PATTERNS) = true)
    by (vm_compute; reflexivity).
  rewrite forallb_forall in H. intros v Hin.
  specialize (H v Hin). apply andb_true_iff in H as [H1 H2]. split.
  - now apply str_eqb_eq.
  - apply Forall_forall. intros c Hc Hs.
    rewrite forallb_forall in H2. specialize (H2 c Hc).
    rewrite Hs in H2. simpl in H2. now apply Ascii.eqb_eq.
Qed.

(** [X1] The vendor returned for any description has no white space at either
    end and holds no space character (tab, line feed, ...) other than the
    plain space. *)
Theorem X1_vendor_is_clean_text (description : str) :
  trimmed (extract_vendor description) /\
  Forall (fun c => Py.isspace c = true -> c = " "%char)
    (extract_vendor description).
Proof.
  destruct (first_match VENDOR_PATTERNS description) as [v|] eqn:E.
  - unfold extract_vendor. rewrite E.
    apply vendors_trimmed. now apply first_match_in with description.
  - rewrite (extract_vendor_fallback description E). unfold Spec.fallback.
    pose proof (split_ws_nonempty description) as Hne.
    pose proof (split_ws_no_space description) as Hns.
    assert (Hcase : forall ts,
               Forall (fun w => w <> []) ts -> Forall no_space ts ->
               let r := match ts with
                        | t1 :: t2 :: _ => t1 ++ " " ++ t2
                        | [t] => t
                        | [] => ("Unknown" : str)
                        end in
               trimmed r /\
               Forall (fun c => Py.isspace c = true -> c = " "%char) r).
    { intros [|t1 [|t2 ts]] H1 H2; simpl.
      - apply single_word; [discriminate|].
        vm_compute. repeat constructor.
      - inversion H1; inversion H2; subst. now apply single_word.
      - inversion H1 as [|? ? ? H1']; inversion H2 as [|? ? ? H2']; subst.
        inversion H1'; inversion H2'; subst. now apply joined_words. }
    destruct (Py.split_ws description) as [|first others].
    + apply (Hcase []); constructor.
    + inversion Hne; inversion Hns; subst.
      destruct (Spec.begins_with_noise first).
      * now apply (Hcase others).
      * now apply (Hcase (first :: others)).
Qed.

Lemma wins_sound (rest before : list (str * str)) (samples : list str) :
  wins before rest samples = true ->
  forall b pattern vendor a,
    rest = b ++ (pattern, vendor) :: a ->
    exists description,
      Re.search pattern description = true /\
      forall p v, In (p, v) (before ++ b) ->
                  Re.search p description = false.
Proof.
  revert before samples.
  induction rest as [|r rest IH]; intros before samples H b pattern vendor a E.
  - destruct b; discriminate E.
  - destruct samples as [|d samples]; [discriminate H|].
    simpl in H. apply andb_true_iff in H as [H Hrest].
    apply andb_true_iff in H as [Hfound Hbefore].
    destruct b as [|r' b]; simpl in E.
    + injection E as -> ->. exists d. split; [exact Hfound|].
      rewrite app_nil_r. intros p v Hin.
      rewrite forallb_forall in Hbefore.
      specialize (Hbefore (p, v) Hin). simpl in Hbefore.
      now apply negb_true_iff.
    + injection E as -> E.
      destruct (IH (before ++ [r']) samples Hrest b pattern vendor a E)
        as (d' & Hd' & Hnone).
      exists d'. split; [exact Hd'|].
      intros p v Hin. apply (Hnone p v).
      rewrite <- app_assoc. exact Hin.
Qed.

(** [X2] No rule of the table is shadowed by the rules before it: for each
    rule there is a description in which its pattern is found and the
    pattern of no earlier rule is, so that the rule is the one that
    decides and the description is given its vendor. *)
Theorem X2_every_rule_can_win
    (before after : list (str * str)) (pattern vendor : str) :
  VENDOR_PATTERNS = before ++ (pattern, vendor) :: after ->
  exists description,
    Re.search pattern description = true /\
    (forall p v, In (p, v) before -> Re.search p description = false) /\
    first_match VENDOR_PATTERNS description = Some vendor /\
    extract_vendor description = vendor.
Proof.
  intros E.
  assert (H : wins [] VENDOR_PATTERNS SAMPLES = true)
    by (vm_compute; reflexivity).
  destruct (wins_sound _ _ _ H before pattern vendor after E)
    as (d & Hfound & Hnone).
  simpl in Hnone.
  assert (Hfirst : first_match VENDOR_PATTERNS d = Some vendor).
  { rewrite E, first_match_app.
    rewrite (proj2 (first_match_none before d) Hnone).
    simpl. now rewrite Hfound. }
  exists d. repeat split; try assumption.
  unfold extract_vendor. now rewrite Hfirst.
Qed.

Lemma X2_witness :
  exists description,
    Re.search "\bUPS Store\b|\bUPS\b.*Shipping" description = true /\
    (forall p v, In (p, v) (firstn 38 VENDOR_PATTERNS) ->
                 Re.search p description = false) /\
    first_match VENDOR_PATTERNS description = Some ("UPS" : str) /\
    extract_vendor description = "UPS".
Proof.
  apply (X2_every_rule_can_win (firstn 38 VENDOR_PATTERNS)
           (skipn 39 VENDOR_PATTERNS)
           "\bUPS Store\b|\bUPS\b.*Shipping" "UPS").
  vm_compute. reflexivity.
Defined.

(* ================================================================= *)
(** ** Further properties of trimming *)

Lemma lstrip_head (s : str) :
  match Py.lstrip s with c :: _ => Py.isspace c = false | [] => True end.
Proof.
  induction s as [|c s IH]; simpl; [trivial|].
  destruct (Py.isspace c) eqn:E; [exact IH | exact E].
Qed.

(** What [strip] returns neither begins nor ends with a space
    character. *)
Lemma strip_ends (s : str) :
  match Py.strip s with c :: _ => Py.isspace c = false | [] => True end /\
  match rev (Py.strip s) with
  | c :: _ => Py.isspace c = false
  | [] => True
  end.
Proof.
  unfold Py.strip, Py.rstrip. rewrite rev_involutive.
  split; [|apply lstrip_head].
  destruct (lstrip_suffix (rev (Py.lstrip s))) as (a & E).
  set (z := Py.lstrip (rev (Py.lstrip s))) in *.
  destruct (rev z) as [|c r] eqn:Ez; [trivial|].
  assert (Hy : Py.lstrip s = c :: r ++ rev a).
  { rewrite <- (rev_involutive (Py.lstrip s)), E, rev_app_distr, Ez.
    reflexivity. }
  pose proof (lstrip_head s) as Hh. now rewrite Hy in Hh.
Qed.

Lemma strip_trimmed (s : str) : trimmed (Py.strip s).
Proof. destruct (strip_ends s). now apply strip_fixed. Qed.

Lemma lstrip_app (t u : str) :
  Py.lstrip (t ++ u) =
  if forallb Py.isspace t then Py.lstrip u else Py.lstrip t ++ u.
Proof.
  induction t as [|c t IH]; simpl; [reflexivity|].
  destruct (Py.isspace c); simpl; [exact IH | reflexivity].
Qed.

Lemma lstrip_all_space (t : str) :
  forallb Py.isspace t = true -> Py.lstrip t = [].
Proof.
  induction t as [|c t IH]; simpl; [reflexivity|].
  intros H. apply andb_true_iff in H as [-> H]. now apply IH.
Qed.

Lemma forallb_rev (p : ascii -> bool) (t : str) :
  forallb p (rev t) = forallb p t.
Proof.
  destruct (forallb p t) eqn:E.
  - rewrite forallb_forall in *. intros c Hc. apply E. now apply in_rev.
  - destruct (forallb p (rev t)) eqn:E'; [|reflexivity].
    rewrite <- E. symmetry. rewrite forallb_forall in *.
    intros c Hc. apply E'. now apply in_rev in Hc.
Qed.

(** White space around a text does not show after trimming. *)
Lemma strip_pad (ws1 t ws2 : str) :
  forallb Py.isspace ws1 = true -> forallb Py.isspace ws2 = true ->
  Py.strip (ws1 ++ t ++ ws2) = Py.strip t.
Proof.
  intros H1 H2. unfold Py.strip, Py.rstrip. f_equal.
  rewrite lstrip_app, H1, lstrip_app.
  destruct (forallb Py.isspace t) eqn:Et.
  - rewrite (lstrip_all_space t Et), (lstrip_all_space ws2 H2). reflexivity.
  - rewrite rev_app_distr, lstrip_app, forallb_rev, H2. reflexivity.
Qed.

(* ================================================================= *)
(** ** Further properties of the amount parser *)

Lemma parse_amount_cleaned (amount_str : str) :
  parse_amount amount_str =
  match Py.float_of_str (cleaned amount_str) with
  | Some x => x
  | None => zero
  end.
Proof. reflexivity. Qed.

Lemma cleaned_filter (amount_str : str) :
  cleaned amount_str =
  Py.strip
    (filter (fun c => negb ((c =? "$")%char || (c =? ",")%char)) amount_str).
Proof. unfold cleaned. now rewrite clean_amount. Qed.

(** [X3] Dollar signs and commas are dropped wherever they stand, and white
    space around the amount does not count. *)
Theorem X3_amount_ignores_symbols_and_padding (a b ws1 ws2 : str) :
  forallb Py.isspace ws1 = true ->
  forallb Py.isspace ws2 = true ->
  parse_amount (a ++ "$" ++ b) = parse_amount (a ++ b) /\
  parse_amount (a ++ "," ++ b) = parse_amount (a ++ b) /\
  parse_amount (ws1 ++ a ++ ws2) = parse_amount a.
Proof.
  intros H1 H2. rewrite !parse_amount_cleaned, !cleaned_filter.
  rewrite !filter_app. simpl.
  split; [reflexivity | split; [reflexivity|]].
  set (keep := fun c => negb ((c =? "$")%char || (c =? ",")%char)).
  assert (Hws : forall ws, forallb Py.isspace ws = true ->
                  forallb Py.isspace (filter keep ws) = true).
  { intros ws H. rewrite forallb_forall in *. intros c Hc.
    apply filter_In in Hc as [Hc _]. now apply H. }
  now rewrite (strip_pad _ _ _ (Hws ws1 H1) (Hws ws2 H2)).
Qed.

Lemma X3_witness :
  parse_amount "1,2$34" = parse_amount "1,234" /\
  parse_amount "12,34" = parse_amount "1234" /\
  parse_amount "  $5.00 " = parse_amount "$5.00".
Proof.
  destruct (X3_amount_ignores_symbols_and_padding "1,2" "34" "" ""
              eq_refl eq_refl) as (H1 & _ & _).
  destruct (X3_amount_ignores_symbols_and_padding "12" "34" "" ""
              eq_refl eq_refl) as (_ & H2 & _).
  destruct (X3_amount_ignores_symbols_and_padding "$5.00" "" "  " " "
              eq_refl eq_refl) as (_ & _ & H3).
  split; [exact H1 | split; [exact H2 | exact H3]].
Defined.

(** *** Reading numerals *)

Lemma float_space_is_space (c : ascii) :
  Py.float_space c = true -> Py.isspace c = true.
Proof. unfold Py.float_space. intros H. now apply andb_true_iff in H. Qed.

Lemma lstrip_by_fixed (p : ascii -> bool) (s : str) :
  match s with c :: _ => p c = false | [] => True end ->
  Py.lstrip_by p s = s.
Proof. destruct s as [|c s]; simpl; [reflexivity|]. now intros ->. Qed.

Lemma not_float_space (s : str) :
  match s with c :: _ => Py.isspace c = false | [] => True end ->
  match s with c :: _ => Py.float_space c = false | [] => True end.
Proof.
  destruct s as [|c s]; [trivial|]. intros H.
  destruct (Py.float_space c) eqn:E; [|reflexivity].
  apply float_space_is_space in E. congruence.
Qed.

(** On a trimmed text [float] has nothing to strip. *)
Lemma float_of_trimmed (amount_str : str) :
  Py.float_of_str (cleaned amount_str) =
  match Py.drop_underscores Ascii.zero (cleaned amount_str) with
  | None => None
  | Some u =>
      let (neg, body) := Py.read_sign u in
      match Py.decimal neg body with
      | Some x => Some x
      | None => Py.inf_or_nan neg body
      end
  end.
Proof.
  unfold Py.float_of_str, cleaned.
  destruct (strip_ends (Py.replace (Py.replace amount_str "$" "") "," ""))
    as [H1 H2].
  rewrite (lstrip_by_fixed _ _ (not_float_space _ H1)).
  rewrite (lstrip_by_fixed _ _ (not_float_space _ H2)).
  now rewrite rev_involutive.
Qed.

Lemma drop_underscores_plain (s : str) (prev : ascii) :
  prev <> "_"%char -> Forall (fun c => c <> "_"%char) s ->
  Py.drop_underscores prev s = Some s.
Proof.
  revert prev. induction s as [|c s IH]; intros prev Hp Hs; simpl.
  - apply Ascii.eqb_neq in Hp. now rewrite Hp.
  - inversion Hs as [|? ? Hc Hs']; subst.
    apply Ascii.eqb_neq in Hp. apply Ascii.eqb_neq in Hc as Hc'.
    rewrite Hc', Hp. simpl. now rewrite (IH c Hc Hs').
Qed.

Lemma span_app (p : ascii -> bool) (a rest : str) :
  forallb p a = true ->
  match rest with c :: _ => p c = false | [] => True end ->
  Py.span p (a ++ rest) = (a, rest).
Proof.
  intros Ha Hr. induction a as [|c a IH]; simpl.
  - destruct rest as [|c rest]; [reflexivity|]. simpl. now rewrite Hr.
  - simpl in Ha. apply andb_true_iff in Ha as [Hc Ha].
    now rewrite Hc, (IH Ha).
Qed.

Lemma digit_facts (c : ascii) :
  Py.isdigit c = true ->
  c <> "_"%char /\ c <> "-"%char /\ c <> "+"%char.
Proof.
  intros H. repeat split; intros ->; vm_compute in H; discriminate.
Qed.

Lemma read_sign_unsigned (s : str) :
  match s with c :: _ => c <> "-"%char /\ c <> "+"%char | [] => True end ->
  Py.read_sign s = (false, s).
Proof.
  destruct s as [|c s]; [reflexivity|]. intros [H1 H2].
  destruct c as [[] [] [] [] [] [] [] []];
    try reflexivity; exfalso; first [now apply H1 | now apply H2].
Qed.

(** A run of digits with a point in it, as [float] reads it. *)
Lemma decimal_point (ip fp : str) :
  forallb Py.isdigit ip = true -> forallb Py.isdigit fp = true ->
  ip ++ fp <> [] ->
  Py.decimal false (ip ++ "."%char :: fp) =
  Some (Py.Finite false (Py.digits_val (ip ++ fp))
          (- Z.of_nat (length fp))).
Proof.
  intros Hi Hf Hne. unfold Py.decimal.
  rewrite (span_app Py.isdigit ip ("."%char :: fp) Hi eq_refl).
  pose proof (span_app Py.isdigit fp [] Hf I) as Hs.
  rewrite app_nil_r in Hs. rewrite Hs.
  destruct (ip ++ fp) as [|c r]; [contradiction|].
  reflexivity.
Qed.

(** [X4] The usual form of an amount: once the dollar signs and commas are
    gone and the text is trimmed, digits, a point, digits, with at most
    fifteen digits in all.  The amount is the float of the number these
    digits write.  Fifteen digits is the range in which a binary64 float
    and the decimal it is read from determine each other, so that the
    decimal names the float; beyond it [float] rounds to a float that
    other decimals share, or to an infinity, which [Py.pyfloat] does not
    follow. *)
Theorem X4_amount_of_digits (amount_str ip fp : str) :
  forallb Py.isdigit ip = true ->
  forallb Py.isdigit fp = true ->
  ip ++ fp <> [] ->
  (length (ip ++ fp) <= 15)%nat ->
  cleaned amount_str = ip ++ "." ++ fp ->
  parse_amount amount_str =
  Py.Finite false (Py.digits_val (ip ++ fp)) (- Z.of_nat (length fp)).
Proof.
  intros Hi Hf Hne _ Hc.
  rewrite parse_amount_cleaned, float_of_trimmed, Hc.
  change (ip ++ "." ++ fp) with (ip ++ "."%char :: fp).
  assert (Hplain : Forall (fun c => c <> "_"%char) (ip ++ "."%char :: fp)).
  { apply Forall_app. split; [|constructor; [discriminate|]];
      apply Forall_forall; intros c Hin;
      rewrite forallb_forall in Hi, Hf;
      apply digit_facts; auto. }
  rewrite (drop_underscores_plain _ Ascii.zero ltac:(discriminate) Hplain).
  rewrite read_sign_unsigned.
  - now rewrite (decimal_point ip fp Hi Hf Hne).
  - destruct ip as [|c ip]; simpl; [split; discriminate|].
    simpl in Hi. apply andb_true_iff in Hi as [Hd _].
    now apply digit_facts in Hd.
Qed.

Lemma X4_witness :
  parse_amount "$12,345.60" = Py.Finite false 1234560 (-2).
Proof.
  apply (X4_amount_of_digits "$12,345.60" "12345" "60").
  - vm_compute. reflexivity.
  - vm_compute. reflexivity.
  - vm_compute. discriminate.
  - simpl. lia.
  - vm_compute. reflexivity.
Defined.

(** *** Texts that are no number *)

Lemma decimal_bad_start (neg : bool) (c : ascii) (s : str) :
  Py.isdigit c = false -> c <> "."%char ->
  Py.decimal neg (c :: s) = None.
Proof.
  intros H1 H2.
  destruct c as [[] [] [] [] [] [] [] []];
    try (vm_compute in H1; discriminate H1);
    try (exfalso; apply H2; reflexivity);
    reflexivity.
Qed.

Lemma inf_or_nan_bad_start (neg : bool) (c : ascii) (s : str) :
  Py.lower_ascii c <> "i"%char -> Py.lower_ascii c <> "n"%char ->
  Py.inf_or_nan neg (c :: s) = None.
Proof.
  intros Hi Hn. unfold Py.inf_or_nan.
  repeat match goal with
         | |- context [list_eq_dec ascii_dec ?a ?b] =>
             destruct (list_eq_dec ascii_dec a b) as [E|_];
             [exfalso; simpl in E; injection E as E _;
              first [now apply Hi | now apply Hn] |]
         end.
  reflexivity.
Qed.

Lemma drop_underscores_start (c : ascii) (rest : str) :
  Py.drop_underscores Ascii.zero (c :: rest) =
  if (c =? "_")%char then None
  else option_map (cons c) (Py.drop_underscores c rest).
Proof. simpl. now destruct (c =? "_")%char. Qed.

(** [X5] An amount whose first character, after cleaning, cannot begin a
    number - not a digit, a point, a sign or the first letter of inf or
    nan - is 0.0: so are amounts in brackets and amounts after a currency
    code. *)
Theorem X5_amount_with_bad_start (amount_str : str) (c : ascii) (rest : str) :
  cleaned amount_str = c :: rest ->
  Py.isdigit c = false ->
  c <> "."%char -> c <> "+"%char -> c <> "-"%char ->
  Py.lower_ascii c <> "i"%char -> Py.lower_ascii c <> "n"%char ->
  parse_amount amount_str = zero.
Proof.
  intros Hc Hd Hpoint Hplus Hminus Hi Hn.
  rewrite parse_amount_cleaned, float_of_trimmed, Hc.
  rewrite drop_underscores_start.
  destruct (c =? "_")%char; [reflexivity|].
  destruct (Py.drop_underscores c rest) as [u|]; [|reflexivity].
  cbn [option_map].
  rewrite read_sign_unsigned by (split; assumption).
  now rewrite decimal_bad_start, inf_or_nan_bad_start.
Qed.

Lemma X5_witness :
  parse_amount "($1,250.00)" = zero /\ parse_amount "USD 40.00" = zero.
Proof.
  split.
  - apply (X5_amount_with_bad_start "($1,250.00)" "("%char "1250.00)");
      vm_compute; first [reflexivity | discriminate].
  - apply (X5_amount_with_bad_start "USD 40.00" "U"%char "SD 40.00");
      vm_compute; first [reflexivity | discriminate].
Defined.

Lemma lower_ascii_letter (c x : ascii) :
  Py.between 97 122 x = true ->
  Py.lower_ascii c = x ->
  c = x \/ c = ascii_of_N (Py.code x - 32).
Proof.
  intros Hx <-.
  destruct c as [[] [] [] [] [] [] [] []];
    first [ left; reflexivity | right; reflexivity
          | vm_compute in Hx; discriminate Hx ].
Qed.

(** [X6] The words nan and inf, in any letter case, are amounts for [float]:
    the record then carries a NaN or an infinity, not 0.0. *)
Theorem X6_amount_nan_and_inf (amount_str : str) :
  (map Py.lower_ascii (cleaned amount_str) = "nan" ->
   parse_amount amount_str = Py.NaN) /\
  (map Py.lower_ascii (cleaned amount_str) = "inf" ->
   parse_amount amount_str = Py.Inf false).
Proof.
  rewrite parse_amount_cleaned, float_of_trimmed.
  split; intros H;
    destruct (cleaned amount_str) as [|c1 [|c2 [|c3 [|c4 r]]]];
    try discriminate H;
    simpl in H; injection H as H1 H2 H3;
    apply lower_ascii_letter in H1; try reflexivity;
    apply lower_ascii_letter in H2; try reflexivity;
    apply lower_ascii_letter in H3; try reflexivity;
    destruct H1 as [-> | ->], H2 as [-> | ->], H3 as [-> | ->];
    reflexivity.
Qed.

Lemma X6_witness :
  parse_amount "$NaN" = Py.NaN /\ parse_amount " Inf " = Py.Inf false.
Proof.
  split.
  - apply (proj1 (X6_amount_nan_and_inf "$NaN")). vm_compute. reflexivity.
  - apply (proj2 (X6_amount_nan_and_inf " Inf ")). vm_compute. reflexivity.
Defined.

(* ================================================================= *)
(** ** Further properties of the line scanner *)

(** What one line adds: nothing, or, inside the table, the record of a
    line that begins with a bar and is no header row. *)
Lemma step_adds (name : str) (st : scan) (raw : str) :
  expenses (step name st raw) = expenses st \/
  exists e,
    in_table st = true /\ row_like raw = true /\
    row_record name (row_parts (Py.strip raw)) = Some e /\
    expenses (step name st raw) = expenses st ++ [e].
Proof.
  unfold step, row_like, Spec.is_header, row_record.
  destruct (negb (nonempty (Py.strip raw))); [now left|].
  destruct (Py.contains "| Date |" (Py.strip raw)
            && Py.contains "GL Acct" (Py.strip raw)); [now left|].
  destruct (in_table st) eqn:Hin; [|now left]. cbn [andb].
  destruct (Py.startswith (Py.strip raw) "|---"); [now left|].
  destruct (Py.contains "**Total" (Py.strip raw)); [now left|]. cbn [orb].
  destruct (Py.startswith (Py.strip raw) "|") eqn:Hbar; [|now left].
  cbn [negb].
  destruct (row_parts (Py.strip raw)) as [|p0 [|p1 [|p2 [|p3 [|p4 more]]]]];
    try (now left).
  right. eexists. repeat split; reflexivity.
Qed.

Lemma run_cons (name : str) (st : scan) (raw : str) (lines : list str) :
  run name st (raw :: lines) = run name (step name st raw) lines.
Proof. reflexivity. Qed.

(** Every record a scan adds is the record of one of its lines. *)
Lemma run_origin (name : str) (lines : list str) (st : scan) (e : ExpenseLine) :
  In e (expenses (run name st lines)) ->
  In e (expenses st) \/
  exists raw,
    In raw lines /\ row_like raw = true /\
    row_record name (row_parts (Py.strip raw)) = Some e.
Proof.
  revert st. induction lines as [|raw lines IH]; intros st Hin.
  - now left.
  - rewrite run_cons in Hin. apply IH in Hin as [Hin | (r & Hr & H)].
    + destruct (step_adds name st raw) as [E | (e' & _ & Hl & Hrec & E)];
        rewrite E in Hin; [now left|].
      apply in_app_or in Hin as [Hin | [<- | []]]; [now left|].
      right. exists raw. split; [now left | now split].
    + right. exists r. split; [now right | exact H].
Qed.

(** [X7] Every record of a document is read from one of its lines, one that
    begins with a bar and is no header row, and is made of the first five
    cells of that line. *)
Theorem X7_record_origin (content name : str) (e : ExpenseLine) :
  In e (parse_markdown_file content name) ->
  exists raw,
    In raw (Py.split content "010") /\ row_like raw = true /\
    row_record name (row_parts (Py.strip raw)) = Some e.
Proof.
  intros Hin.
  apply (run_origin name (Py.split content "010") start e) in Hin
    as [[] | H].
  exact H.
Qed.

Lemma X7_witness :
  exists raw,
    In raw (Py.split
              (document
                 [ "| Date | GL Acct/Job | Dept/Phase | Description | Amount |"
                   : str;
                   "| 01/02 | 6010 | 10 | Delta flight | $310.20 |" : str ])
              "010") /\
    row_like raw = true /\
    row_record "report.md" (row_parts (Py.strip raw))
    = Some {| date := "01/02"; description := "Delta flight";
              vendor := "Delta Airlines";
              amount := Py.Finite false 31020 (-2); gl_code := "6010";
              department := "10"; source_file := "report.md" |}.
Proof.
  apply X7_record_origin. vm_compute. left. reflexivity.
Defined.

(** *** The cells of a record *)

Lemma split_fields (s : str) (sep : ascii) (f : str) :
  In f (Py.split s sep) ->
  ~ In sep f /\ forall c, In c f -> In c s.
Proof.
  revert f. induction s as [|c s IH]; intros f; simpl.
  - intros [<- | []]. split; [intros [] | intros ? []].
  - destruct (c =? sep)%char eqn:E.
    + intros [<- | Hin]; [split; [intros [] | intros ? []]|].
      destruct (IH f Hin) as [H1 H2]. split; [exact H1|].
      intros x Hx. right. now apply H2.
    + pose proof (split_not_nil s sep) as Hne.
      destruct (Py.split s sep) as [|g gs]; [contradiction|].
      intros [<- | Hin].
      * destruct (IH g (or_introl eq_refl)) as [H1 H2]. split.
        -- intros [Hc | Hc]; [|now apply H1].
           subst. now rewrite Ascii.eqb_refl in E.
        -- intros x [<- | Hx]; [now left | right; now apply H2].
      * destruct (IH f (or_intror Hin)) as [H1 H2]. split; [exact H1|].
        intros x Hx. right. now apply H2.
Qed.

Lemma strip_chars (s : str) (c : ascii) : In c (Py.strip s) -> In c s.
Proof.
  destruct (strip_infix s) as (a & b & E). intros H. rewrite E.
  apply in_or_app. right. apply in_or_app. now left.
Qed.

(** The cells of a line of the text are cells. *)
Lemma row_parts_cells (content raw p : str) :
  In raw (Py.split content "010") ->
  In p (row_parts (Py.strip raw)) ->
  cell p.
Proof.
  intros Hraw Hp. unfold row_parts in Hp.
  apply filter_In in Hp as [Hp Hne].
  apply in_map_iff in Hp as (f & <- & Hf).
  destruct (split_fields _ _ _ Hf) as [Hbar Hsub].
  destruct (split_fields _ _ _ Hraw) as [Hnl _].
  repeat split.
  - intros E. now rewrite E in Hne.
  - apply strip_trimmed.
  - intros H. apply Hbar. now apply strip_chars.
  - intros H. apply Hnl. now apply strip_chars, Hsub, strip_chars.
Qed.

Lemma replace_no_old (s : str) (old : ascii) :
  ~ In old (Py.replace s old []).
Proof.
  rewrite replace_by_nothing. intros H.
  apply filter_In in H as [_ H]. now rewrite Ascii.eqb_refl in H.
Qed.

Lemma replace_chars (s : str) (old c : ascii) :
  In c (Py.replace s old []) -> In c s.
Proof.
  rewrite replace_by_nothing. intros H. now apply filter_In in H as [H _].
Qed.

(** [X8] In every record of a document the date, the department and the
    description are cells of the table - not empty, trimmed, free of bars
    and line feeds - and the GL code holds no period, bar or line feed
    (it may be empty). *)
Theorem X8_record_fields (content name : str) (e : ExpenseLine) :
  In e (parse_markdown_file content name) ->
  cell (date e) /\ cell (department e) /\ cell (description e) /\
  ~ In "."%char (gl_code e) /\ ~ In "|"%char (gl_code e) /\
  ~ In "010"%char (gl_code e).
Proof.
  intros Hin.
  apply (run_origin name (Py.split content "010") start e) in Hin
    as [[] | (raw & Hraw & _ & Hrec)].
  pose proof (row_parts_cells content raw) as Hcell.
  unfold row_record in Hrec.
  destruct (row_parts (Py.strip raw)) as [|p0 [|p1 [|p2 [|p3 [|p4 more]]]]];
    try discriminate Hrec.
  injection Hrec as <-. cbn [date department description gl_code].
  assert (H1 : cell p1) by (apply Hcell; [assumption | simpl; tauto]).
  destruct H1 as (_ & _ & Hbar & Hnl).
  repeat split;
    try (apply Hcell; [assumption | simpl; tauto]).
  - apply replace_no_old.
  - intros H. apply Hbar. now apply replace_chars in H.
  - intros H. apply Hnl. now apply replace_chars in H.
Qed.

Lemma X8_witness :
  let e := {| date := "01/02"; description := "Delta flight";
              vendor := "Delta Airlines";
              amount := Py.Finite false 31020 (-2); gl_code := "6010";
              department := "10"; source_file := "report.md" |} in
  cell (date e) /\ cell (department e) /\ cell (description e) /\
  ~ In "."%char (gl_code e) /\ ~ In "|"%char (gl_code e) /\
  ~ In "010"%char (gl_code e).
Proof.
  intros e.
  apply (X8_record_fields
           (document
              [ "| Date | GL Acct/Job | Dept/Phase | Description | Amount |"
                : str;
                "|  01/02 | 60.10. | 10 | Delta flight | $310.20 |" : str ])
           "report.md" e).
  vm_compute. left. reflexivity.
Defined.

(** [X9] In every record of a document the vendor is the classifier's answer
    for the record's description, so it is never empty, and the source
    file is the name the document was read under. *)
Theorem X9_record_consistent (content name : str) (e : ExpenseLine) :
  In e (parse_markdown_file content name) ->
  vendor e = extract_vendor (description e) /\
  vendor e <> [] /\
  source_file e = name.
Proof.
  intros Hin.
  apply (run_origin name (Py.split content "010") start e) in Hin
    as [[] | (raw & _ & _ & Hrec)].
  unfold row_record in Hrec.
  destruct (row_parts (Py.strip raw)) as [|p0 [|p1 [|p2 [|p3 [|p4 more]]]]];
    try discriminate Hrec.
  injection Hrec as <-. cbn [vendor description source_file].
  repeat split. destruct (first_match VENDOR_PATTERNS p3) as [v|] eqn:E.
  - unfold extract_vendor. rewrite E. apply first_match_in in E.
    pose proof vendors_nonempty as Hall. rewrite Forall_forall in Hall.
    now apply Hall.
  - rewrite (extract_vendor_fallback p3 E). apply fallback_nonempty.
Qed.

Lemma X9_witness :
  let e := {| date := "01/02"; description := "Delta flight";
              vendor := "Delta Airlines";
              amount := Py.Finite false 31020 (-2); gl_code := "6010";
              department := "10"; source_file := "report.md" |} in
  vendor e = extract_vendor (description e) /\
  vendor e <> [] /\
  source_file e = "report.md".
Proof.
  intros e.
  apply (X9_record_consistent
           (document
              [ "| Date | GL Acct/Job | Dept/Phase | Description | Amount |"
                : str;
                "| 01/02 | 6010 | 10 | Delta flight | $310.20 |" : str ])
           "report.md" e).
  vm_compute. left. reflexivity.
Defined.

(** *** Counting, extending and closing *)

Lemma run_count (name : str) (lines : list str) (st : scan) :
  length (expenses (run name st lines))
  <= length (expenses st) + length (filter row_like lines).
Proof.
  revert st. induction lines as [|raw lines IH]; intros st.
  - simpl. lia.
  - rewrite run_cons. specialize (IH (step name st raw)).
    destruct (step_adds name st raw) as [E | (e & _ & Hl & _ & E)];
      rewrite E in IH; simpl.
    + destruct (row_like raw); simpl; lia.
    + rewrite Hl. rewrite length_app in IH. simpl in *. lia.
Qed.

(** [X10] A document yields at most one record for each of its lines that
    begin with a bar and are no header row; a document without such a
    line yields none. *)
Theorem X10_record_count (content name : str) :
  length (parse_markdown_file content name)
  <= length (filter row_like (Py.split content "010")).
Proof.
  unfold parse_markdown_file.
  apply (run_count name (Py.split content "010") start).
Qed.

(** [X11] Text added after a document leaves the records of the document as
    they are: the records of the longer text begin with them. *)
Theorem X11_records_only_grow (a b name : str) :
  exists more,
    parse_markdown_file (a ++ NL ++ b) name
    = parse_markdown_file a name ++ more.
Proof.
  unfold parse_markdown_file.
  change (a ++ NL ++ b) with (a ++ "010"%char :: b).
  rewrite split_app, fold_left_app.
  set (st := fold_left (step name) (Py.split a "010") start).
  destruct (run_mode name (Py.split b "010") st) as [_ H].
  unfold run in H. rewrite H. eexists. reflexivity.
Qed.

Lemma run_outside (name : str) (lines : list str) (st : scan) :
  in_table st = false ->
  (forall l, In l lines -> Spec.is_header (Py.strip l) = false) ->
  run name st lines = st.
Proof.
  intros Hout. induction lines as [|l lines IH]; intros H; [reflexivity|].
  rewrite run_cons.
  rewrite (step_outside name st l Hout (H l (or_introl eq_refl))).
  apply IH. intros l' Hin. apply H. now right.
Qed.

(** A line that closes the table, or leaves it closed. *)
Lemma step_closing (name : str) (st : scan) (raw : str) :
  Py.strip raw <> [] ->
  Spec.is_header (Py.strip raw) = false ->
  Py.startswith (Py.strip raw) "|" = false ->
  in_table (step name st raw) = false /\
  expenses (step name st raw) = expenses st.
Proof.
  intros Hne Hh Hbar.
  assert (Hn : nonempty (Py.strip raw) = true).
  { destruct (Py.strip raw); [contradiction | reflexivity]. }
  assert (Hsep : Py.startswith (Py.strip raw) "|---" = false).
  { destruct (Py.startswith (Py.strip raw) "|---") eqn:E; [|reflexivity].
    apply separator_starts_with_bar in E. congruence. }
  unfold Spec.is_header in Hh. unfold step.
  rewrite Hn, Hh, Hsep, Hbar. cbn [negb].
  rewrite orb_true_r, !andb_false_r, andb_true_r.
  destruct (in_table st) eqn:E; simpl; auto.
Qed.

(** [X12] Once a line that is not empty, does not begin with a bar and is no
    header row has been read, nothing is recorded until the next header
    row: rows written after such a line are not read. *)
Theorem X12_rows_after_the_table (a closing b name : str) :
  ~ In "010"%char closing ->
  Py.strip closing <> [] ->
  Spec.is_header (Py.strip closing) = false ->
  Py.startswith (Py.strip closing) "|" = false ->
  (forall l, In l (Py.split b "010") ->
             Spec.is_header (Py.strip l) = false) ->
  parse_markdown_file (a ++ NL ++ closing ++ NL ++ b) name
  = parse_markdown_file a name.
Proof.
  intros Hnl Hne Hh Hbar Hb. unfold parse_markdown_file.
  change (a ++ NL ++ closing ++ NL ++ b)
    with (a ++ "010"%char :: closing ++ "010"%char :: b).
  rewrite split_app, fold_left_app, split_app, fold_left_app.
  set (st := fold_left (step name) (Py.split a "010") start).
  assert (Hsplit : Py.split closing "010" = [closing]).
  { clear - Hnl. induction closing as [|c s IH]; [reflexivity|]. simpl.
    destruct (c =? "010")%char eqn:E.
    - apply Ascii.eqb_eq in E. subst. exfalso. apply Hnl. now left.
    - rewrite IH; [reflexivity|]. intros H. apply Hnl. now right. }
  rewrite Hsplit. simpl.
  destruct (step_closing name st closing Hne Hh Hbar) as [Hout Hex].
  change (fold_left (step name) (Py.split b "010") (step name st closing))
    with (run name (step name st closing) (Py.split b "010")).
  now rewrite (run_outside name _ _ Hout Hb).
Qed.

Lemma X12_witness :
  parse_markdown_file
    (document
       [ "| Date | GL Acct/Job | Dept/Phase | Description | Amount |" : str;
         "| 01/02 | 6010 | 10 | Delta flight | $310.20 |" : str ]
     ++ NL ++ "Notes:" ++ NL ++
     document [ "| 01/09 | 6010 | 10 | Uber | $18.40 |" : str ])
    "report.md"
  = parse_markdown_file
      (document
         [ "| Date | GL Acct/Job | Dept/Phase | Description | Amount |" : str;
           "| 01/02 | 6010 | 10 | Delta flight | $310.20 |" : str ])
      "report.md".
Proof.
  apply X12_rows_after_the_table.
  - vm_compute. intuition discriminate.
  - vm_compute. discriminate.
  - vm_compute. reflexivity.
  - vm_compute. reflexivity.
  - intros l Hin. vm_compute in Hin. destruct Hin as [<- | []].
    vm_compute. reflexivity.
Defined.

(** *** Line ends *)

Lemma step_strip (name : str) (st : scan) (raw raw' : str) :
  Py.strip raw = Py.strip raw' -> step name st raw = step name st raw'.
Proof. intros E. unfold step. now rewrite E. Qed.

Lemma run_strip (name : str) (lines lines' : list str) (st : scan) :
  Forall2 (fun x y => Py.strip x = Py.strip y) lines lines' ->
  run name st lines = run name st lines'.
Proof.
  intros H. revert st. induction H as [|x y l l' E _ IH]; intros st.
  - reflexivity.
  - rewrite !run_cons, (step_strip name st x y E). apply IH.
Qed.

Lemma strip_cr (l : str) : Py.strip (l ++ [CR]) = Py.strip l.
Proof. apply (strip_pad [] l [CR]); reflexivity. Qed.

(** The lines of a text whose line feeds have become carriage return and
    line feed are the lines of the text, with a carriage return at the
    end of some. *)
Lemma split_crlf (s : str) :
  Forall2 (fun x y => x = y \/ x = y ++ [CR])
    (Py.split (Py.replace s "010" [CR; "010"%char]) "010")
    (Py.split s "010").
Proof.
  induction s as [|c s IH].
  - repeat constructor.
  - cbn [Py.replace]. destruct (c =? "010")%char eqn:E.
    + apply Ascii.eqb_eq in E. subst c. simpl.
      pose proof (split_not_nil (Py.replace s "010" [CR; "010"%char]) "010")
        as Hne.
      constructor; [now right | exact IH].
    + simpl. rewrite E.
      pose proof (split_not_nil (Py.replace s "010" [CR; "010"%char]) "010")
        as Hne.
      pose proof (split_not_nil s "010") as Hne'.
      destruct (Py.split (Py.replace s "010" [CR; "010"%char]) "010")
        as [|f fs]; [contradiction|].
      destruct (Py.split s "010") as [|g gs]; [contradiction|].
      inversion IH as [|? ? ? ? Hfg Hrest]; subst.
      constructor; [|exact Hrest].
      destruct Hfg as [-> | ->]; [now left | now right].
Qed.

(** [X13] A text with CRLF line ends gives the records of the same text with
    LF line ends. *)
Theorem X13_crlf_line_ends (content name : str) :
  parse_markdown_file (Py.replace content "010" [CR; "010"%char]) name
  = parse_markdown_file content name.
Proof.
  unfold parse_markdown_file. f_equal.
  apply (run_strip name). eapply Forall2_impl; [|apply split_crlf].
  simpl. intros x y [-> | ->]; [reflexivity | apply strip_cr].
Qed.

Lemma split_one (line : str) :
  ~ In "010"%char line -> Py.split line "010" = [line].
Proof.
  induction line as [|c s IH]; intros Hnl; [reflexivity|]. simpl.
  destruct (c =? "010")%char eqn:E.
  - apply Ascii.eqb_eq in E. subst. exfalso. apply Hnl. now left.
  - rewrite IH; [reflexivity|]. intros H. apply Hnl. now right.
Qed.

(** The lines of a document are the lines it was made of. *)
Lemma split_document (lines : list str) :
  lines <> [] ->
  Forall (fun l => ~ In "010"%char l) lines ->
  Py.split (document lines) "010" = lines.
Proof.
  intros Hne H. induction H as [|l ls Hl Hls IH]; [contradiction|].
  destruct ls as [|l' ls].
  - now apply split_one.
  - change (document (l :: l' :: ls))
      with (l ++ "010"%char :: document (l' :: ls)).
    rewrite split_app, (split_one l Hl), IH; [reflexivity | discriminate].
Qed.

(** [X14] White space at the ends of the lines - indentation, trailing blanks,
    carriage returns - does not count: two documents whose lines agree
    once trimmed give the same records. *)
Theorem X14_line_padding (lines lines' : list str) (name : str) :
  Forall (fun l => ~ In "010"%char l) lines ->
  Forall (fun l => ~ In "010"%char l) lines' ->
  Forall2 (fun x y => Py.strip x = Py.strip y) lines lines' ->
  parse_markdown_file (document lines) name
  = parse_markdown_file (document lines') name.
Proof.
  intros H H' E. unfold parse_markdown_file. apply (f_equal expenses).
  destruct E as [|x y l l' Exy E]; [reflexivity|].
  rewrite !split_document by (assumption || discriminate).
  apply (run_strip name (x :: l) (y :: l') start). now constructor.
Qed.

Lemma X14_witness :
  parse_markdown_file
    (document
       [ "   | Date | GL Acct/Job | Dept/Phase | Description | Amount |"
         : str;
         "  | 01/02 | 6010 | 10 | Delta flight | $310.20 |   " : str ])
    "report.md"
  = parse_markdown_file
      (document
         [ "| Date | GL Acct/Job | Dept/Phase | Description | Amount |" : str;
           "| 01/02 | 6010 | 10 | Delta flight | $310.20 |" : str ])
      "report.md".
Proof.
  apply X14_line_padding.
  - repeat constructor; vm_compute; intuition discriminate.
  - repeat constructor; vm_compute; intuition discriminate.
  - repeat constructor; vm_compute; reflexivity.
Defined.

(* ================================================================= *)
(** ** The loops of [main] *)

Lemma collect_from (md_files : list (str * str)) (acc : list ExpenseLine) :
  fold_left
    (fun all_expenses md_file =>
       all_expenses ++ parse_markdown_file (fst md_file) (snd md_file))
    md_files acc
  = acc ++ concat (map (fun f => parse_markdown_file (fst f) (snd f))
                     md_files).
Proof.
  revert acc. induction md_files as [|f fs IH]; intros acc; simpl.
  - now rewrite app_nil_r.
  - now rewrite IH, app_assoc.
Qed.

(** [X15] The records of all the files are those of each file, in the order
    of the files; their number is the sum of the numbers printed for the
    files, and every record names the file it was read from. *)
Theorem X15_collect (md_files : list (str * str)) :
  collect md_files
  = concat (map (fun f => parse_markdown_file (fst f) (snd f)) md_files) /\
  length (collect md_files)
  = list_sum
      (map (fun f => length (parse_markdown_file (fst f) (snd f))) md_files) /\
  (forall e, In e (collect md_files) ->
             exists f, In f md_files /\ source_file e = snd f /\
                       In e (parse_markdown_file (fst f) (snd f))).
Proof.
  assert (E : collect md_files
              = concat (map (fun f => parse_markdown_file (fst f) (snd f))
                          md_files)).
  { unfold collect. now rewrite collect_from. }
  split; [exact E | split].
  - rewrite E. clear E. induction md_files as [|f fs IH]; simpl;
      [reflexivity|]. now rewrite length_app, IH.
  - intros e Hin. rewrite E in Hin. apply in_concat in Hin as (l & Hl & He).
    apply in_map_iff in Hl as (f & <- & Hf).
    exists f. repeat split; try assumption.
    apply (run_origin (snd f) (Py.split (fst f) "010") start e) in He
      as [[] | (raw & _ & _ & Hrec)].
    unfold row_record in Hrec.
    destruct (row_parts (Py.strip raw))
      as [|p0 [|p1 [|p2 [|p3 [|p4 more]]]]]; try discriminate Hrec.
    now injection Hrec as <-.
Qed.

Lemma X15_witness :
  let january : str :=
    document
      [ "| Date | GL Acct/Job | Dept/Phase | Description | Amount |" : str;
        "| 01/02 | 6010 | 10 | Delta flight | $310.20 |" : str ] in
  let e := {| date := "01/02"; description := "Delta flight";
              vendor := "Delta Airlines";
              amount := Py.Finite false 31020 (-2); gl_code := "6010";
              department := "10"; source_file := "january.md" |} in
  exists f,
    In f [ (january, "january.md" : str); ("# nothing" : str, "notes.md" : str) ]
    /\ source_file e = snd f /\
    In e (parse_markdown_file (fst f) (snd f)).
Proof.
  intros january e.
  apply (proj2 (proj2 (X15_collect
                         [ (january, "january.md" : str);
                           ("# nothing" : str, "notes.md" : str) ])) e).
  vm_compute. left. reflexivity.
Defined.


(** *** Counting vendors *)

Lemma str_eqb_sym (x y : str) : str_eqb x y = str_eqb y x.
Proof.
  unfold str_eqb.
  destruct (list_eq_dec ascii_dec x y), (list_eq_dec ascii_dec y x);
    congruence.
Qed.

Lemma str_eqb_refl (x : str) : str_eqb x x = true.
Proof. now apply str_eqb_eq. Qed.

Lemma dict_get_set (d : dict) (key key' : str) (value default : nat) :
  dict_get (dict_set d key value) key' default =
  if str_eqb key key' then value else dict_get d key' default.
Proof.
  induction d as [|[k v] d IH]; simpl.
  - reflexivity.
  - destruct (str_eqb k key) eqn:E; simpl.
    + apply str_eqb_eq in E. subst k. now destruct (str_eqb key key').
    + rewrite IH. destruct (str_eqb k key') eqn:E'; [|reflexivity].
      apply str_eqb_eq in E'. subst k. now rewrite str_eqb_sym, E.
Qed.

Lemma dict_set_keys (d : dict) (key : str) (value : nat) :
  map fst (dict_set d key value) =
  if existsb (str_eqb key) (map fst d) then map fst d
  else map fst d ++ [key].
Proof.
  induction d as [|[k v] d IH]; simpl; [reflexivity|].
  destruct (str_eqb k key) eqn:E; simpl.
  - apply str_eqb_eq in E. subst k. now rewrite str_eqb_refl.
  - rewrite IH, str_eqb_sym, E. simpl.
    now destruct (existsb (str_eqb key) (map fst d)).
Qed.

Lemma dict_set_sum (d : dict) (key : str) :
  list_sum (map snd (dict_set d key (dict_get d key 0 + 1)))
  = list_sum (map snd d) + 1.
Proof.
  induction d as [|[k v] d IH]; simpl; [reflexivity|].
  destruct (str_eqb k key); simpl; [lia|]. rewrite IH. lia.
Qed.

Section Counting.

(** The body of the loop that fills [vendor_counts]. *)
Let bump (counts : dict) (exp : ExpenseLine) : dict :=
  dict_set counts (vendor exp) (dict_get counts (vendor exp) 0 + 1).

Lemma counts_get (l : list ExpenseLine) (d : dict) (v : str) :
  dict_get (fold_left bump l d) v 0 = dict_get d v 0 + occurrences v l.
Proof.
  revert d. induction l as [|e l IH]; intros d; simpl.
  - unfold occurrences. simpl. lia.
  - rewrite IH. unfold bump. rewrite dict_get_set.
    unfold occurrences. simpl.
    destruct (str_eqb (vendor e) v) eqn:E; simpl; [|reflexivity].
    apply str_eqb_eq in E. rewrite E. lia.
Qed.

Lemma counts_sum (l : list ExpenseLine) (d : dict) :
  list_sum (map snd (fold_left bump l d)) = list_sum (map snd d) + length l.
Proof.
  revert d. induction l as [|e l IH]; intros d; simpl; [lia|].
  rewrite IH. unfold bump. rewrite dict_set_sum. lia.
Qed.

Lemma existsb_str_eqb (key : str) (keys : list str) :
  existsb (str_eqb key) keys = true <-> In key keys.
Proof.
  rewrite existsb_exists. split.
  - intros (k & Hk & E). apply str_eqb_eq in E. now subst.
  - intros H. exists key. split; [exact H | apply str_eqb_refl].
Qed.

Lemma counts_keys (l : list ExpenseLine) (d : dict) :
  NoDup (map fst d) ->
  NoDup (map fst (fold_left bump l d)) /\
  (forall v, In v (map fst (fold_left bump l d)) <->
             In v (map fst d) \/ In v (map vendor l)).
Proof.
  revert d. induction l as [|e l IH]; intros d Hd; simpl.
  - split; [exact Hd | tauto].
  - assert (Hkeys : map fst (bump d e)
                    = if existsb (str_eqb (vendor e)) (map fst d)
                      then map fst d else map fst d ++ [vendor e])
      by apply dict_set_keys.
    assert (Hd' : NoDup (map fst (bump d e))).
    { rewrite Hkeys.
      destruct (existsb (str_eqb (vendor e)) (map fst d)) eqn:E;
        [exact Hd|].
      apply NoDup_app; [exact Hd | repeat constructor; intros [] |].
      intros x Hx [<- | []].
      apply existsb_str_eqb in Hx. congruence. }
    destruct (IH (bump d e) Hd') as [H1 H2]. split; [exact H1|].
    intros v. rewrite H2, Hkeys.
    destruct (existsb (str_eqb (vendor e)) (map fst d)) eqn:E.
    + apply existsb_str_eqb in E. split; [tauto|].
      intros [H | [<- | H]]; tauto.
    + rewrite in_app_iff. simpl. tauto.
Qed.

End Counting.

Lemma dict_get_in (d : dict) (k : str) (n default : nat) :
  NoDup (map fst d) -> In (k, n) d -> dict_get d k default = n.
Proof.
  induction d as [|[k' v] d IH]; simpl; intros Hnd Hin; [contradiction|].
  inversion Hnd as [|? ? Hnot Hnd']; subst.
  destruct Hin as [E | Hin].
  - injection E as -> ->. now rewrite str_eqb_refl.
  - destruct (str_eqb k' k) eqn:E; [|now apply IH].
    apply str_eqb_eq in E. subst k'. exfalso. apply Hnot.
    change k with (fst (k, n)). now apply in_map.
Qed.

Lemma occurrences_pos (v : str) (l : list ExpenseLine) :
  In v (map vendor l) -> 1 <= occurrences v l.
Proof.
  unfold occurrences. induction l as [|e l IH]; simpl; [contradiction|].
  intros [<- | H].
  - rewrite str_eqb_refl. simpl. lia.
  - destruct (str_eqb (vendor e) v); simpl; [lia | now apply IH].
Qed.

(** [X16] [vendor_counts] holds each vendor of the records once, and with it
    the number of records of that vendor, which is at least one; a text
    that is no vendor of a record is not a key; the counts add up to the
    number of records. *)
Theorem X16_vendor_counts (all_expenses : list ExpenseLine) :
  NoDup (map fst (vendor_counts all_expenses)) /\
  (forall v, In v (map fst (vendor_counts all_expenses)) <->
             In v (map vendor all_expenses)) /\
  (forall v n, In (v, n) (vendor_counts all_expenses) ->
               n = occurrences v all_expenses /\ 1 <= n) /\
  (forall v, dict_get (vendor_counts all_expenses) v 0
             = occurrences v all_expenses) /\
  list_sum (map snd (vendor_counts all_expenses)) = length all_expenses.
Proof.
  destruct (counts_keys all_expenses [] (NoDup_nil _)) as [Hnd Hkeys].
  pose proof (counts_get all_expenses []) as Hget.
  pose proof (counts_sum all_expenses []) as Hsum.
  simpl in Hkeys, Hget, Hsum.
  assert (Hk : forall v, In v (map fst (vendor_counts all_expenses)) <->
                         In v (map vendor all_expenses)).
  { intros v. unfold vendor_counts. rewrite Hkeys. tauto. }
  repeat split; try assumption; try apply Hk.
  - rewrite <- (Hget v). symmetry. now apply dict_get_in.
  - assert (Hn : n = occurrences v all_expenses).
    { rewrite <- (Hget v). symmetry. now apply dict_get_in. }
    rewrite Hn. apply occurrences_pos, Hk.
    change v with (fst (v, n)). now apply in_map.
Qed.

Lemma X16_witness :
  2 = occurrences "Uber"
        [ sample_line "Uber"; sample_line "Lyft"; sample_line "Uber" ] /\
  1 <= 2.
Proof.
  apply (proj1 (proj2 (proj2 (X16_vendor_counts
                                [ sample_line "Uber"; sample_line "Lyft";
                                  sample_line "Uber" ]))) "Uber" 2).
  vm_compute. left. reflexivity.
Defined.


(** *** Sorting *)

Section Sorting.

Variable A : Type.
Variable key : A -> Z.

Lemma insert_by_perm (x : A) (l : list A) :
  Permutation (insert_by key x l) (x :: l).
Proof.
  induction l as [|y l IH]; simpl; [reflexivity|].
  destruct (key x <=? key y)%Z; [reflexivity|].
  rewrite IH. apply perm_swap.
Qed.

Lemma sorted_perm (l : list A) : Permutation (sorted l key) l.
Proof.
  unfold sorted. induction l as [|x l IH]; simpl; [reflexivity|].
  rewrite insert_by_perm. now constructor.
Qed.

Lemma insert_by_sorted (x : A) (l : list A) :
  StronglySorted (fun a b => (key a <= key b)%Z) l ->
  StronglySorted (fun a b => (key a <= key b)%Z) (insert_by key x l).
Proof.
  induction 1 as [|y l Hs IH Hy]; simpl.
  - repeat constructor.
  - destruct (key x <=? key y)%Z eqn:E.
    + apply Z.leb_le in E. constructor; [now constructor|].
      constructor; [exact E|].
      eapply Forall_impl; [|exact Hy]. simpl. intros a Ha. lia.
    + apply Z.leb_gt in E. constructor; [exact IH|].
      apply Forall_forall. intros a Ha.
      apply (Permutation_in _ (insert_by_perm x l)) in Ha as [<- | Ha];
        [lia|].
      rewrite Forall_forall in Hy. now apply Hy.
Qed.

Lemma sorted_sorted (l : list A) :
  StronglySorted (fun a b => (key a <= key b)%Z) (sorted l key).
Proof.
  unfold sorted. induction l as [|x l IH]; simpl; [constructor|].
  now apply insert_by_sorted.
Qed.

(** The sort is stable: items with the same key stay in their order. *)
Lemma insert_by_stable (k : Z) (x : A) (l : list A) :
  filter (fun y => (key y =? k)%Z) (insert_by key x l)
  = filter (fun y => (key y =? k)%Z) (x :: l).
Proof.
  induction l as [|y l IH]; simpl; [reflexivity|].
  destruct (key x <=? key y)%Z eqn:E; [reflexivity|].
  apply Z.leb_gt in E. simpl. rewrite IH. simpl.
  destruct (key x =? k)%Z eqn:Ex, (key y =? k)%Z eqn:Ey; try reflexivity.
  apply Z.eqb_eq in Ex, Ey. lia.
Qed.

Lemma sorted_stable (k : Z) (l : list A) :
  filter (fun y => (key y =? k)%Z) (sorted l key)
  = filter (fun y => (key y =? k)%Z) l.
Proof.
  unfold sorted. induction l as [|x l IH]; simpl; [reflexivity|].
  rewrite insert_by_stable. simpl. now rewrite IH.
Qed.

End Sorting.

Lemma sorted_split (A : Type) (R : A -> A -> Prop) (a b : list A) :
  StronglySorted R (a ++ b) ->
  StronglySorted R a /\ (forall x y, In x a -> In y b -> R x y).
Proof.
  induction a as [|c a IH]; simpl; intros H.
  - split; [constructor | intros ? ? []].
  - inversion H as [|? ? Hs Hc]; subst.
    destruct (IH Hs) as [H1 H2]. split.
    + constructor; [exact H1|].
      apply Forall_app in Hc. tauto.
    + intros x y [<- | Hx] Hy; [|now apply H2].
      rewrite Forall_forall in Hc. apply Hc, in_or_app. now right.
Qed.

(** *** The order of [vendor_counts] *)

Lemma filter_twice (A : Type) (f g : A -> bool) (l : list A) :
  filter g (filter f l) = filter (fun x => f x && g x) l.
Proof.
  induction l as [|x l IH]; simpl; [reflexivity|].
  destruct (f x); simpl; [|exact IH].
  destruct (g x); now rewrite IH.
Qed.

Lemma filter_all (A : Type) (l : list A) : filter (fun _ => true) l = l.
Proof. induction l as [|x l IH]; simpl; [reflexivity | now rewrite IH]. Qed.

(** The keys after the loop: the keys before it, then the new vendors in
    the order in which they first occur. *)
Lemma counts_first_seen (l : list ExpenseLine) (d : dict) :
  map fst
    (fold_left
       (fun counts exp =>
          dict_set counts (vendor exp) (dict_get counts (vendor exp) 0 + 1))
       l d)
  = map fst d ++
    filter (fun v => negb (existsb (str_eqb v) (map fst d)))
      (first_seen (map vendor l)).
Proof.
  revert d. induction l as [|e l IH]; intros d; simpl.
  - now rewrite app_nil_r.
  - rewrite IH, dict_set_keys.
    destruct (existsb (str_eqb (vendor e)) (map fst d)) eqn:E; simpl.
    + f_equal. rewrite filter_twice. apply filter_ext. intros w.
      destruct (str_eqb (vendor e) w) eqn:Ew; [|reflexivity].
      apply str_eqb_eq in Ew. subst w. now rewrite E.
    + rewrite <- app_assoc. simpl. do 2 f_equal.
      rewrite filter_twice. apply filter_ext. intros w.
      rewrite existsb_app. simpl.
      rewrite orb_false_r, negb_orb, andb_comm.
      now rewrite (str_eqb_sym w (vendor e)).
Qed.

Lemma items_of_keys (g : str -> nat) (items : dict) :
  (forall v n, In (v, n) items -> n = g v) ->
  items = map (fun v => (v, g v)) (map fst items).
Proof.
  induction items as [|[v n] items IH]; intros H; simpl; [reflexivity|].
  rewrite <- IH by (intros w m Hin; apply H; now right).
  now rewrite (H v n (or_introl eq_refl)).
Qed.

(** [vendor_counts] is the list of the vendors of the records, each once
    and in the order in which they first occur, each with the number of
    its records. *)
Lemma vendor_counts_spec (all_expenses : list ExpenseLine) :
  vendor_counts all_expenses
  = map (fun v => (v, occurrences v all_expenses))
      (first_seen (map vendor all_expenses)).
Proof.
  pose proof (counts_first_seen all_expenses []) as Hkeys.
  simpl in Hkeys. rewrite filter_all in Hkeys.
  fold (vendor_counts all_expenses) in Hkeys.
  rewrite <- Hkeys. apply items_of_keys. intros v n Hin.
  destruct (counts_keys all_expenses [] (NoDup_nil _)) as [Hnd _].
  pose proof (counts_get all_expenses [] v) as Hget. simpl in Hget.
  rewrite <- Hget. symmetry. now apply dict_get_in.
Qed.

Lemma first_seen_in (l : list ExpenseLine) (v : str) :
  In v (first_seen (map vendor l)) <-> In v (map vendor l).
Proof.
  pose proof (counts_first_seen l []) as Hkeys.
  simpl in Hkeys. rewrite filter_all in Hkeys. rewrite <- Hkeys.
  destruct (counts_keys l [] (NoDup_nil _)) as [_ H].
  rewrite H. simpl. tauto.
Qed.

Lemma keys_of_filter (g : str -> nat) (n : nat) (l : list str) :
  map fst (filter (fun x => (snd x =? n)%nat) (map (fun v => (v, g v)) l))
  = filter (fun v => (g v =? n)%nat) l.
Proof.
  induction l as [|v l IH]; simpl; [reflexivity|].
  destruct (g v =? n)%nat; simpl; now rewrite IH.
Qed.

(** The first fifteen items of a dict sorted by decreasing count. *)
Lemma top_of_items (items : dict) :
  let top := firstn 15 (sorted items (fun x => (- Z.of_nat (snd x))%Z)) in
  length top = Nat.min 15 (length items) /\
  (forall x, In x top -> In x items) /\
  StronglySorted (fun x y => snd y <= snd x) top /\
  (forall x y, In x top -> In y items -> ~ In y top -> snd y <= snd x) /\
  (forall n, exists more,
      filter (fun x => (snd x =? n)%nat) top ++ more
      = filter (fun x => (snd x =? n)%nat) items).
Proof.
  intros top.
  set (key := fun x : str * nat => (- Z.of_nat (snd x))%Z).
  set (all := sorted items key).
  assert (Hsplit : top ++ skipn 15 all = all) by apply firstn_skipn.
  pose proof (sorted_perm _ key items) as Hperm. fold all in Hperm.
  pose proof (sorted_sorted _ key items) as Hsorted. fold all in Hsorted.
  rewrite <- Hsplit in Hsorted.
  apply sorted_split in Hsorted as [Htop Hcross].
  split; [|split; [|split; [|split]]].
  - change top with (firstn 15 all).
    rewrite length_firstn, (Permutation_length Hperm). reflexivity.
  - intros x Hx. apply (Permutation_in _ Hperm).
    rewrite <- Hsplit. apply in_or_app. now left.
  - clear - Htop. induction Htop as [|x l _ IH Hx]; constructor;
      [exact IH|].
    eapply Forall_impl; [|exact Hx]. unfold key. simpl. intros y. lia.
  - intros x y Hx Hy Hny.
    apply (Permutation_in _ (Permutation_sym Hperm)) in Hy.
    rewrite <- Hsplit in Hy. apply in_app_or in Hy as [Hy | Hy];
      [contradiction|].
    specialize (Hcross x y Hx Hy). unfold key in Hcross. lia.
  - intros n. exists (filter (fun x => (snd x =? n)%nat) (skipn 15 all)).
    rewrite <- filter_app, Hsplit.
    assert (Hext : forall l : list (str * nat),
               filter (fun x => (snd x =? n)%nat) l
               = filter (fun x => (key x =? - Z.of_nat n)%Z) l).
    { intros l. apply filter_ext. intros x. unfold key.
      destruct (snd x =? n)%nat eqn:E.
      - apply Nat.eqb_eq in E. rewrite E. symmetry. apply Z.eqb_refl.
      - apply Nat.eqb_neq in E. symmetry. apply Z.eqb_neq. lia. }
    rewrite !Hext. apply (sorted_stable _ key).
Qed.

(** [X17] The list printed as top vendors, read against the records.  It
    holds fifteen vendors, or all of them when the records have fewer;
    each stands with the number of its records; the numbers go down the
    list; no vendor left out has more records than a vendor listed; and
    the listed vendors with a given number of records are the first of
    the vendors with that number, in the order in which the vendors first
    occur in the records. *)
Theorem X17_top_vendors (all_expenses : list ExpenseLine) :
  let vendors := first_seen (map vendor all_expenses) in
  let count := fun v => occurrences v all_expenses in
  let top := top_vendors all_expenses in
  length top = Nat.min 15 (length vendors) /\
  (forall v c, In (v, c) top ->
               In v (map vendor all_expenses) /\ c = count v) /\
  StronglySorted (fun x y => snd y <= snd x) top /\
  (forall x v, In x top -> In v (map vendor all_expenses) ->
               ~ In v (map fst top) -> count v <= snd x) /\
  (forall n, exists more,
      map fst (filter (fun x => (snd x =? n)%nat) top) ++ more
      = filter (fun v => (count v =? n)%nat) vendors).
Proof.
  intros vendors count top.
  pose proof (vendor_counts_spec all_expenses) as Hspec.
  fold vendors in Hspec. fold count in Hspec.
  destruct (top_of_items (vendor_counts all_expenses))
    as (Hlen & Hin & Hsorted & Hdom & Hties).
  fold (top_vendors all_expenses) in Hlen, Hin, Hsorted, Hdom, Hties.
  fold top in Hlen, Hin, Hsorted, Hdom, Hties.
  assert (Hitem : forall v c, In (v, c) (vendor_counts all_expenses) ->
                    In v (map vendor all_expenses) /\ c = count v).
  { intros v c H. rewrite Hspec in H.
    apply in_map_iff in H as (w & E & Hw). injection E as -> <-.
    split; [|reflexivity]. now apply first_seen_in. }
  split; [|split; [|split; [|split]]].
  - rewrite Hlen, Hspec. now rewrite length_map.
  - intros v c H. now apply Hitem, Hin.
  - exact Hsorted.
  - intros x v Hx Hv Hnot.
    apply (Hdom x (v, count v) Hx).
    + rewrite Hspec. apply in_map_iff. exists v.
      split; [reflexivity|]. now apply first_seen_in.
    + intros H. apply Hnot. change v with (fst (v, count v)).
      now apply in_map.
  - intros n. destruct (Hties n) as (more & E).
    exists (map fst more). rewrite <- map_app, E, Hspec.
    apply keys_of_filter.
Qed.

Lemma X17_witness :
  In ("Lyft" : str)
    (map vendor
       [ sample_line "Uber"; sample_line "Lyft"; sample_line "Uber" ]) /\
  1 = occurrences "Lyft"
        [ sample_line "Uber"; sample_line "Lyft"; sample_line "Uber" ].
Proof.
  apply (proj1 (proj2 (X17_top_vendors
                         [ sample_line "Uber"; sample_line "Lyft";
                           sample_line "Uber" ])) "Lyft" 1).
  vm_compute. right. left. reflexivity.
Defined.


(* ================================================================= *)
(** ** The first rule, on any description *)

Lemma lower_is_word (c x : ascii) :
  Re.lower c = x -> Re.is_word x = true -> Re.is_word c = true.
Proof. intros <-. now rewrite is_word_lower. Qed.

(** [X18] The word Delta, in any letter case, standing between characters that
    are no word characters (or at an end of the description), makes the
    vendor Delta Airlines whatever else the description holds: the rule
    is the first of the table. *)
Theorem X18_delta_anywhere (pre w post : str) :
  map Re.lower w = "delta" ->
  Re.word_before (last_char None pre) = false ->
  Re.word_after post = false ->
  extract_vendor (pre ++ w ++ post) = "Delta Airlines".
Proof.
  intros Hw Hpre Hpost.
  assert (Hsearch : Re.search "\bDelta\b|\bDELTA AIR\b" (pre ++ w ++ post)
                    = true).
  { unfold Re.search.
    destruct (Re.compile "\bDelta\b|\bDELTA AIR\b") as [r|] eqn:Hc;
      [|vm_compute in Hc; discriminate Hc].
    vm_compute in Hc. injection Hc as <-.
    apply search_from_anywhere. exists pre, (w ++ post).
    split; [reflexivity|].
    destruct w as [|c1 [|c2 [|c3 [|c4 [|c5 [|c6 w]]]]]];
      try discriminate Hw.
    simpl in Hw. injection Hw as H1 H2 H3 H4 H5.
    unfold Re.match_at. cbn [existsb]. apply orb_true_iff. left.
    cbn [app Re.match_here Re.accepts Re.at_boundary Re.word_after
         Re.word_before].
    unfold Re.at_boundary. rewrite Hpre, Hpost, H1, H2, H3, H4, H5.
    cbn [Re.word_after Re.word_before].
    rewrite (lower_is_word c1 _ H1 eq_refl), (lower_is_word c5 _ H5 eq_refl).
    reflexivity. }
  unfold extract_vendor.
  change VENDOR_PATTERNS
    with (("\bDelta\b|\bDELTA AIR\b" : str, "Delta Airlines" : str)
          :: skipn 1 VENDOR_PATTERNS).
  cbn [first_match]. now rewrite Hsearch.
Qed.

Lemma X18_witness :
  extract_vendor "TKT 0062 DELTA AIR LINES 1234" = "Delta Airlines".
Proof.
  apply (X18_delta_anywhere "TKT 0062 " "DELTA" " AIR LINES 1234");
    vm_compute; reflexivity.
Defined.
